(** * RAG Document Assistant: the React client, embedded and verified

    A shallow embedding of the frontend of the RAG Document Assistant:

    - [services/api.js]  the axios client used by the components,
    - [api.js]           the older fetch client,
    - [components/ChatPanel.js], [components/DocumentPanel.js],
      [components/StatusBar.js] and [App.js].

    React state is modelled by explicit state passing: every [useState]
    cell is a record field and every handler is a function on the record.
    An [await] is the point where a handler is cut in two: the part that
    runs up to the request, and the resumption that runs with the outcome
    of the request.  The network is a state-passing effect over an
    arbitrary backend that logs every request it is sent. *)

From Stdlib Require Import String Ascii List ZArith QArith Bool Lia DecimalString.
Import ListNotations.
Local Open Scope string_scope.
Local Open Scope Z_scope.
Set Warnings "-register-all".

(** ** JavaScript values and strings *)

Module JS.

(** Values that cross the wire or sit in component state.  [JNum] holds
    the integer-valued numbers, which is what identifiers, counts and
    [top_k] are; [JReal] holds a number that is not an integer, as a
    relevance score is. *)
Inductive JsVal : Type :=
| JUndefined
| JNull
| JBool (b : bool)
| JNum (n : Z)
| JStr (s : string)
| JArr (items : list JsVal)
| JObj (fields : list (string * JsVal))
| JReal (q : Q).

(** [ToBoolean]: what [if (v)] and [!v] look at. *)
Definition truthy (v : JsVal) : bool :=
  match v with
  | JUndefined | JNull => false
  | JBool b => b
  | JNum n => negb (n =? 0)
  | JStr s => negb (s =? "")%string
  | JArr _ | JObj _ => true
  | JReal q => negb (Qeq_bool q 0)
  end.

Definition nullish (v : JsVal) : bool :=
  match v with
  | JUndefined | JNull => true
  | _ => false
  end.

Fixpoint lookup (k : string) (fields : list (string * JsVal)) : JsVal :=
  match fields with
  | [] => JUndefined
  | (k', v) :: rest => if (k' =? k)%string then v else lookup k rest
  end.

(** The number [q] as a value: [JNum] when it is an integer. *)
Definition number_of_Q (q : Q) : JsVal :=
  match Qden (Qred q) with
  | xH => JNum (Qnum (Qred q))
  | _ => JReal q
  end.

(** [v.k].  Reading a property of [undefined] or [null] throws a
    TypeError ([None]); on a primitive or an array a data key such as
    [session_id] is simply missing. *)
Definition get_prop (v : JsVal) (k : string) : option JsVal :=
  match v with
  | JUndefined | JNull => None
  | JObj fields => Some (lookup k fields)
  | _ => Some JUndefined
  end.

(** [v?.k] *)
Definition get_prop_opt (v : JsVal) (k : string) : JsVal :=
  match get_prop v k with
  | Some x => x
  | None => JUndefined
  end.

(** A parameter default [p = d] replaces [undefined] only. *)
Definition default_param (d v : JsVal) : JsVal :=
  match v with
  | JUndefined => d
  | _ => v
  end.

(** Strings are sequences of code units below 256. *)
Definition code (c : ascii) : Z := Z.of_nat (nat_of_ascii c).

(** WhiteSpace and LineTerminator code units: TAB, LF, VT, FF, CR, SP
    and NBSP. *)
Definition is_space (c : ascii) : bool :=
  let n := code c in
  ((9 <=? n) && (n <=? 13)) || (n =? 32) || (n =? 160).

Fixpoint trimStart (s : string) : string :=
  match s with
  | EmptyString => EmptyString
  | String c rest => if is_space c then trimStart rest else s
  end.

Fixpoint trimEnd (s : string) : string :=
  match s with
  | EmptyString => EmptyString
  | String c rest =>
      match trimEnd rest with
      | EmptyString => if is_space c then EmptyString else String c EmptyString
      | rest' => String c rest'
      end
  end.

Definition trim (s : string) : string := trimEnd (trimStart s).

(** Lower case of one code unit: A-Z and the accented capitals
    U+00C0-U+00DE (without the multiplication sign U+00D7) move up by 32. *)
Definition lower_char (c : ascii) : ascii :=
  let n := code c in
  if ((65 <=? n) && (n <=? 90))
     || ((192 <=? n) && (n <=? 222) && negb (n =? 215))
  then ascii_of_nat (Z.to_nat (n + 32))
  else c.

Fixpoint toLowerCase (s : string) : string :=
  match s with
  | EmptyString => EmptyString
  | String c rest => String (lower_char c) (toLowerCase rest)
  end.

Definition endsWith (s suffix : string) : bool :=
  let n := String.length s in
  let m := String.length suffix in
  (m <=? n)%nat && (substring (n - m) m s =? suffix)%string.

(** [Number.MAX_SAFE_INTEGER]: up to here every integer is a double. *)
Definition MAX_SAFE_INTEGER : Z := 2 ^ 53 - 1.

(** The characters of an identifier that URL resolution neither drops nor
    rewrites nor reads as a delimiter: letters, digits, hyphen and
    underscore. *)
Definition is_plain_char (c : ascii) : bool :=
  let n := code c in
  ((48 <=? n) && (n <=? 57)) || ((65 <=? n) && (n <=? 90))
  || ((97 <=? n) && (n <=? 122)) || (n =? 45) || (n =? 95).

Fixpoint plain_id (s : string) : bool :=
  match s with
  | EmptyString => true
  | String c rest => is_plain_char c && plain_id rest
  end.

(** How URL resolution reads a path that starts with a slash and is made
    of plain characters, dots, slashes, [?] and [#]: the path ends at the
    first [?] or [#], a segment that is a single dot is dropped, and a
    last segment that is a dot leaves an empty one.  [None] stands for
    what is not modelled: any other character, and a double-dot segment,
    whose effect depends on the base URL.  [done] is the path resolved so
    far and [cur] the segment being read. *)
Definition finish_path (done cur : string) : option string :=
  if (cur =? "..")%string then None
  else if (cur =? ".")%string then Some (done ++ "/")
  else Some (done ++ "/" ++ cur).

Fixpoint resolve_from (s done cur : string) : option string :=
  match s with
  | EmptyString => finish_path done cur
  | String c rest =>
      if (c =? "?")%char || (c =? "#")%char then finish_path done cur
      else if (c =? "/")%char
      then if (cur =? "..")%string then None
           else if (cur =? ".")%string then resolve_from rest done ""
           else resolve_from rest (done ++ "/" ++ cur) ""
      else if is_plain_char c || (c =? ".")%char
      then resolve_from rest done (cur ++ String c "")
      else None
  end.

Definition resolve_path (p : string) : option string :=
  match p with
  | String c rest => if (c =? "/")%char then resolve_from rest "" "" else None
  | EmptyString => None
  end.

(** [String(n)], also what a template literal does to [n]: the decimal
    digits of an integer-valued number, with a minus sign when negative.
    Exact for integers up to [MAX_SAFE_INTEGER] in magnitude; from 1e21
    on JavaScript prints an exponent instead. *)
Definition number_to_string (n : Z) : string :=
  NilZero.string_of_int (Z.to_int n).

(** [x.toFixed(1)] for [x = num / den] with [num >= 0] and [den] a power
    of two, as the divisions of [formatFileSize] are: the quotient is
    exact in a double, and [toFixed] takes the integer [n] with [n / 10]
    nearest to [x], the larger one on a tie. *)
Definition tenths (num den : Z) : Z := (20 * num + den) / (2 * den).

Definition fixed1 (n : Z) : string :=
  number_to_string (n / 10) ++ "." ++ number_to_string (n mod 10).

Definition toFixed1 (num den : Z) : string := fixed1 (tenths num den).

End JS.
Import JS.

(** ** Requests, outcomes and the network effect *)

Inductive Method : Type := GET | POST | DELETE.

(** A browser [File]: the components read its [name]; [size] is its
    length in bytes. *)
Record File : Type := { name : string; size : Z }.

Inductive Body : Type :=
| NoBody
| Json (payload : JsVal)
| FormData (field : string) (file : File).

(** A request as the client issues it; [path] is relative to [API_BASE]. *)
Record Request : Type := { method : Method; path : string; body : Body }.

Inductive Failure : Type :=
| Timeout
| Unreachable
| HttpError (status : Z).

(** What awaiting a request gives: the promise resolves with
    [response.data], or it rejects and the [await] throws. *)
Inductive Outcome : Type :=
| Resolved (data : JsVal)
| Rejected (why : Failure).

(** The backend is any state machine answering requests; [sent] logs the
    requests in the order they were issued. *)
Record Net (Server : Type) : Type := { backend : Server; sent : list Request }.
Arguments backend {Server} _.
Arguments sent {Server} _.

Definition Eff (Server A : Type) : Type := Net Server -> A * Net Server.

Definition ret {Server A : Type} (a : A) : Eff Server A := fun w => (a, w).

Definition bind {Server A B : Type} (c : Eff Server A) (k : A -> Eff Server B)
  : Eff Server B :=
  fun w => let (a, w') := c w in k a w'.

Notation "x <- c ;; k" := (bind c (fun x => k))
  (at level 61, c at next level, right associativity).

Definition send {Server : Type} (serve : Request -> Server -> Server * Outcome)
    (r : Request) : Eff Server Outcome :=
  fun w =>
    let (b, o) := serve r (backend w) in
    (o, {| backend := b; sent := sent w ++ [r] |}).

(** ** services/api.js: the axios client *)

Module ServicesApi.

Definition checkHealth_request : Request :=
  {| method := GET; path := "/health/"; body := NoBody |}.

Definition listDocuments_request : Request :=
  {| method := GET; path := "/documents/"; body := NoBody |}.

Definition uploadDocument_request (file : File) : Request :=
  {| method := POST; path := "/documents/"; body := FormData "file" file |}.

Definition deleteDocument_request (documentId : string) : Request :=
  {| method := DELETE; path := "/documents/" ++ documentId ++ "/";
     body := NoBody |}.

(** The four requests below paste an identifier into the path.  The
    argument is the string the template literal makes of the identifier,
    and [path] is the string handed to axios; the path requested is what
    URL resolution makes of it, [requested_path] below. *)
Definition getDocument_request (documentId : string) : Request :=
  {| method := GET; path := "/documents/" ++ documentId ++ "/"; body := NoBody |}.

Definition listSessions_request : Request :=
  {| method := GET; path := "/sessions/"; body := NoBody |}.

Definition getSession_request (sessionId : string) : Request :=
  {| method := GET; path := "/sessions/" ++ sessionId ++ "/"; body := NoBody |}.

Definition deleteSession_request (sessionId : string) : Request :=
  {| method := DELETE; path := "/sessions/" ++ sessionId ++ "/"; body := NoBody |}.

(** [api.post('/models/pull/', { model: modelName })] *)
Definition pullModel_request (modelName : string) : Request :=
  {| method := POST; path := "/models/pull/";
     body := Json (JObj [("model", JStr modelName)]) |}.

(** The path a request asks the server for, relative to the base. *)
Definition requested_path (r : Request) : option string := resolve_path (path r).

(** [const payload = { question }; if (sessionId) payload.session_id = sessionId] *)
Definition askQuestion_payload (question : string) (sessionId : JsVal) : JsVal :=
  let sessionId := default_param JNull sessionId in
  JObj (("question", JStr question)
        :: (if truthy sessionId then [("session_id", sessionId)] else [])).

Definition askQuestion_request (question : string) (sessionId : JsVal) : Request :=
  {| method := POST; path := "/query/";
     body := Json (askQuestion_payload question sessionId) |}.

Section Calls.
Context {Server : Type} (serve : Request -> Server -> Server * Outcome).

Definition checkHealth : Eff Server Outcome := send serve checkHealth_request.

Definition listDocuments : Eff Server Outcome := send serve listDocuments_request.

Definition uploadDocument (file : File) : Eff Server Outcome :=
  send serve (uploadDocument_request file).

Definition deleteDocument (documentId : string) : Eff Server Outcome :=
  send serve (deleteDocument_request documentId).

Definition askQuestion (question : string) (sessionId : JsVal) : Eff Server Outcome :=
  send serve (askQuestion_request question sessionId).

Definition getDocument (documentId : string) : Eff Server Outcome :=
  send serve (getDocument_request documentId).

Definition listSessions : Eff Server Outcome := send serve listSessions_request.

Definition getSession (sessionId : string) : Eff Server Outcome :=
  send serve (getSession_request sessionId).

Definition deleteSession (sessionId : string) : Eff Server Outcome :=
  send serve (deleteSession_request sessionId).

Definition pullModel (modelName : string) : Eff Server Outcome :=
  send serve (pullModel_request modelName).

End Calls.

End ServicesApi.

(** ** api.js: the fetch client.  Only the requests it issues are
    embedded; each function hands back the parsed body or throws when the
    response is not ok. *)

Module Api.

Definition uploadDocument_request (file : File) : Request :=
  {| method := POST; path := "/documents/upload"; body := FormData "file" file |}.

Definition getDocuments_request : Request :=
  {| method := GET; path := "/documents"; body := NoBody |}.

Definition deleteDocument_request (docId : string) : Request :=
  {| method := DELETE; path := "/documents/" ++ docId; body := NoBody |}.

(** [query(question, topK = 3)] posts [{ question, top_k: topK }]. *)
Definition query_payload (question : string) (topK : JsVal) : JsVal :=
  let topK := default_param (JNum 3) topK in
  JObj [("question", JStr question); ("top_k", topK)].

Definition query_request (question : string) (topK : JsVal) : Request :=
  {| method := POST; path := "/query"; body := Json (query_payload question topK) |}.

Definition healthCheck_request : Request :=
  {| method := GET; path := "/health"; body := NoBody |}.

(** What [await fetch(...)] gives: a response, whose [ok] flag says
    whether the status is 2xx and whose body may fail to read, or a
    rejection when the request itself fails. *)
Record FetchResponse : Type := { ok : bool; body_text : option string }.

Inductive FetchOutcome : Type :=
| Responded (res : FetchResponse)
| NoResponse.

Inductive Thrown : Type :=
| ErrorWith (message : string)
| NetworkFailure
| BodyFailure
| JsonSyntaxError.

Inductive Completion (A : Type) : Type :=
| Returned (a : A)
| Threw (e : Thrown).
Arguments Returned {A} _.
Arguments Threw {A} _.

Section Responses.
(** [JSON.parse] *)
Context (parse : string -> option JsVal).

(** [res.text()] *)
Definition res_text (res : FetchResponse) : Completion string :=
  match body_text res with
  | Some t => Returned t
  | None => Threw BodyFailure
  end.

(** [res.json()] *)
Definition res_json (res : FetchResponse) : Completion JsVal :=
  match body_text res with
  | Some t =>
      match parse t with
      | Some v => Returned v
      | None => Threw JsonSyntaxError
      end
  | None => Threw BodyFailure
  end.

(** [if (!res.ok) throw new Error(message); return res.json();] *)
Definition checked (message : string) (o : FetchOutcome) : Completion JsVal :=
  match o with
  | NoResponse => Threw NetworkFailure
  | Responded res => if negb (ok res) then Threw (ErrorWith message) else res_json res
  end.

(** [if (!res.ok) throw new Error(await res.text()); return res.json();] *)
Definition uploadDocument (o : FetchOutcome) : Completion JsVal :=
  match o with
  | NoResponse => Threw NetworkFailure
  | Responded res =>
      if negb (ok res)
      then match res_text res with
           | Returned t => Threw (ErrorWith t)
           | Threw e => Threw e
           end
      else res_json res
  end.

Definition getDocuments (o : FetchOutcome) : Completion JsVal :=
  checked "Failed to fetch documents" o.

Definition deleteDocument (o : FetchOutcome) : Completion JsVal :=
  checked "Failed to delete document" o.

Definition query (o : FetchOutcome) : Completion JsVal :=
  checked "Query failed" o.

(** [const res = await fetch(...); return res.json();] *)
Definition healthCheck (o : FetchOutcome) : Completion JsVal :=
  match o with
  | NoResponse => Threw NetworkFailure
  | Responded res => res_json res
  end.

End Responses.

End Api.

(** ** components/ChatPanel.js *)

Module ChatPanel.

Inductive Role : Type := user | assistant.

(** A message object of the [messages] array.  [sources] and [error] are
    keys that only some messages have. *)
Record Message : Type :=
  { role : Role; content : JsVal; sources : option JsVal; error : option bool }.

Record State : Type :=
  { messages : list Message; input : string; loading : bool; sessionId : JsVal }.

Definition initial : State :=
  {| messages := []; input := ""; loading := false; sessionId := JNull |}.

Definition setMessages (f : list Message -> list Message) (st : State) : State :=
  {| messages := f (messages st); input := input st;
     loading := loading st; sessionId := sessionId st |}.

Definition setInput (s : string) (st : State) : State :=
  {| messages := messages st; input := s;
     loading := loading st; sessionId := sessionId st |}.

Definition setLoading (b : bool) (st : State) : State :=
  {| messages := messages st; input := input st;
     loading := b; sessionId := sessionId st |}.

Definition setSessionId (v : JsVal) (st : State) : State :=
  {| messages := messages st; input := input st;
     loading := loading st; sessionId := v |}.

(** [{ role: 'user', content: question }] *)
Definition user_message (question : string) : Message :=
  {| role := user; content := JStr question; sources := None; error := None |}.

(** [{ role: 'assistant', content: response.answer, sources: response.sources }] *)
Definition answer_message (response : JsVal) : Message :=
  {| role := assistant; content := get_prop_opt response "answer";
     sources := Some (get_prop_opt response "sources"); error := None |}.

Definition error_text : string :=
  "Sorry, I encountered an error processing your question. Please try again.".

(** [{ role: 'assistant', content: 'Sorry, ...', error: true }] *)
Definition error_message : Message :=
  {| role := assistant; content := JStr error_text;
     sources := None; error := Some true |}.

(** [handleSubmit] up to the [await]: the guard, the three state updates,
    and the arguments [askQuestion] is called with.  The handler reads
    [input], [loading] and [sessionId] of the render it belongs to, which
    is the state at the event; [e.preventDefault()] touches no state. *)
Definition handleSubmit_begin (st : State) : State * option (string * JsVal) :=
  if negb (truthy (JStr (trim (input st)))) || loading st then (st, None)
  else
    let question := trim (input st) in
    let st1 := setInput "" st in
    let st2 := setLoading true st1 in
    let st3 := setMessages (fun prev => (prev ++ [user_message question])%list) st2 in
    (st3, Some (question, sessionId st)).

(** [handleSubmit] from the [await] on: the rest of the [try] block, the
    [catch] and the [finally].  The first statement after the [await]
    reads [response.session_id], which throws when [response] is
    [undefined] or [null]; the later reads then cannot throw. *)
Definition handleSubmit_resume (o : Outcome) (st : State) : State :=
  let caught :=
    setMessages (fun prev => (prev ++ [error_message])%list) st in
  let st' :=
    match o with
    | Resolved response =>
        match get_prop response "session_id" with
        | Some sid =>
            setMessages (fun prev => (prev ++ [answer_message response])%list)
                        (setSessionId sid st)
        | None => caught
        end
    | Rejected _ => caught
    end in
  setLoading false st'.

Definition handleNewChat (st : State) : State :=
  setSessionId JNull (setMessages (fun _ => []) st).

(** [handleSubmit] run from the submit event to the end of the handler,
    with no other event in between. *)
Definition handleSubmit {Server : Type}
    (serve : Request -> Server -> Server * Outcome) (st : State) : Eff Server State :=
  match handleSubmit_begin st with
  | (st1, None) => ret st1
  | (st1, Some (question, sid)) =>
      o <- ServicesApi.askQuestion serve question sid ;;
      ret (handleSubmit_resume o st1)
  end.

(** [disabled={!input.trim() || loading}] of the submit button. *)
Definition submit_disabled (st : State) : bool :=
  negb (truthy (JStr (trim (input st)))) || loading st.

End ChatPanel.

(** ** The chat panel under a sequence of events *)

Module ChatRun.
Import ChatPanel.

(** What can happen to a mounted chat panel: the user types, submits the
    form, clicks New Chat, or a pending query settles. *)
Inductive Event : Type :=
| Typed (s : string)
| Submitted
| NewChatClicked
| Settled (o : Outcome).

(** The panel together with the queries it is waiting for, oldest first. *)
Record Running : Type :=
  { view : State; in_flight : list (string * JsVal) }.

Definition start : Running := {| view := initial; in_flight := [] |}.

(** The text input is [disabled={loading}], so typing reaches [setInput]
    only while nothing is loading; a settlement needs a pending query. *)
Definition step (r : Running) (e : Event) : Running :=
  match e with
  | Typed s =>
      if loading (view r) then r
      else {| view := setInput s (view r); in_flight := in_flight r |}
  | Submitted =>
      match handleSubmit_begin (view r) with
      | (st, None) => {| view := st; in_flight := in_flight r |}
      | (st, Some call) => {| view := st; in_flight := (in_flight r ++ [call])%list |}
      end
  | NewChatClicked =>
      {| view := handleNewChat (view r); in_flight := in_flight r |}
  | Settled o =>
      match in_flight r with
      | [] => r
      | _ :: rest => {| view := handleSubmit_resume o (view r); in_flight := rest |}
      end
  end.

Definition run (events : list Event) (r : Running) : Running :=
  fold_left step events r.

Definition is_new_chat (e : Event) : bool :=
  match e with
  | NewChatClicked => true
  | _ => false
  end.

(** A log made of exchanges: a user message, then an assistant message. *)
Fixpoint exchanges (l : list Message) : bool :=
  match l with
  | [] => true
  | u :: rest =>
      match rest with
      | [] => false
      | a :: rest' =>
          match role u, role a with
          | user, assistant => exchanges rest'
          | _, _ => false
          end
      end
  end.

(** Loading and the pending queries go together. *)
Definition in_step (r : Running) : Prop :=
  (loading (view r) = true /\ exists call, in_flight r = [call]) \/
  (loading (view r) = false /\ in_flight r = []).

(** While waiting the log is whole exchanges and the open question;
    otherwise it is whole exchanges. *)
Definition paired (r : Running) : Prop :=
  if loading (view r)
  then exists l q, messages (view r) = (l ++ [user_message q])%list /\ exchanges l = true
  else exchanges (messages (view r)) = true.

End ChatRun.

(** ** App.js and components/StatusBar.js *)

Module App.

(** A settled promise. *)
Inductive Promise (A : Type) : Type :=
| Fulfilled (a : A)
| Failed (why : Failure).
Arguments Fulfilled {A} _.
Arguments Failed {A} _.

Definition of_outcome (o : Outcome) : Promise JsVal :=
  match o with
  | Resolved d => Fulfilled d
  | Rejected why => Failed why
  end.

(** [p.then(f)] and [p.catch(h)] for handlers that do not throw. *)
Definition then_ {A B : Type} (p : Promise A) (f : A -> B) : Promise B :=
  match p with
  | Fulfilled a => Fulfilled (f a)
  | Failed why => Failed why
  end.

Definition catch_ {A : Type} (p : Promise A) (h : Failure -> A) : Promise A :=
  match p with
  | Fulfilled a => Fulfilled a
  | Failed why => Fulfilled (h why)
  end.

Record State : Type := { health : JsVal; documents : JsVal; activePanel : string }.

Definition initial : State :=
  {| health := JNull; documents := JArr []; activePanel := "chat" |}.

Definition setHealth (h : JsVal) (st : State) : State :=
  {| health := h; documents := documents st; activePanel := activePanel st |}.

(** [{ status: 'error', ollama_available: false }] *)
Definition error_health : JsVal :=
  JObj [("status", JStr "error"); ("ollama_available", JBool false)].

(** The promise chain of the mount effect:
    [checkHealth().then(setHealth).catch(() => setHealth({...}))]. *)
Definition health_chain (o : Outcome) : Promise (State -> State) :=
  catch_ (then_ (of_outcome o) setHealth) (fun _ => setHealth error_health).

(** The mount effect; the [bool] tells whether the chain ended rejected
    with nobody handling it. *)
Definition health_effect {Server : Type}
    (serve : Request -> Server -> Server * Outcome) (st : State)
  : Eff Server (State * bool) :=
  o <- ServicesApi.checkHealth serve ;;
  ret (match health_chain o with
       | Fulfilled update => (update st, false)
       | Failed _ => (st, true)
       end).

End App.

Module StatusBar.

(** [const ollamaStatus = health?.ollama_available] *)
Definition ollamaStatus (health : JsVal) : JsVal :=
  get_prop_opt health "ollama_available".

Definition llm_label (health : JsVal) : string :=
  if truthy (ollamaStatus health) then "Connected" else "Disconnected".

End StatusBar.

(** ** components/DocumentPanel.js *)

Module DocumentPanel.

(** [documents] is the prop owned by [App]; the rest is local state. *)
Record State : Type :=
  { documents : JsVal; uploading : bool; error : option string; dragOver : bool }.

Definition initial : State :=
  {| documents := JArr []; uploading := false; error := None; dragOver := false |}.

Definition setDocuments (docs : JsVal) (st : State) : State :=
  {| documents := docs; uploading := uploading st;
     error := error st; dragOver := dragOver st |}.

Definition setUploading (b : bool) (st : State) : State :=
  {| documents := documents st; uploading := b;
     error := error st; dragOver := dragOver st |}.

Definition setError (e : option string) (st : State) : State :=
  {| documents := documents st; uploading := uploading st;
     error := e; dragOver := dragOver st |}.

(** [file.name.toLowerCase().endsWith('.pdf')] *)
Definition isPdf (file : File) : bool :=
  endsWith (toLowerCase (name file)) ".pdf".

Definition setDragOver (b : bool) (st : State) : State :=
  {| documents := documents st; uploading := uploading st;
     error := error st; dragOver := b |}.

(** [formatFileSize(bytes)] for an integer [bytes] of magnitude at most
    [MAX_SAFE_INTEGER].  There [bytes] and both quotients are exact
    doubles far below 1e21, so the template literal and [toFixed] print
    plain decimals; beyond it this definition says nothing about the
    source. *)
Definition formatFileSize (bytes : Z) : string :=
  if bytes <? 1024 then number_to_string bytes ++ " B"
  else if bytes <? 1024 * 1024 then toFixed1 bytes 1024 ++ " KB"
  else toFixed1 bytes (1024 * 1024) ++ " MB".

Section Handlers.
Context {Server : Type} (serve : Request -> Server -> Server * Outcome).

Definition fetchDocuments (st : State) : Eff Server State :=
  o <- ServicesApi.listDocuments serve ;;
  ret (match o with
       | Resolved docs => setDocuments docs st
       | Rejected _ => setError (Some "Failed to load documents") st
       end).

(** The [for (const file of files)] loop of [handleUpload]; each upload
    is awaited before the next file is looked at. *)
Fixpoint upload_loop (files : list File) (st : State) : Eff Server State :=
  match files with
  | [] => ret st
  | file :: rest =>
      if negb (isPdf file)
      then upload_loop rest (setError (Some "Only PDF files are supported") st)
      else
        o <- ServicesApi.uploadDocument serve file ;;
        upload_loop rest
          (match o with
           | Resolved _ => st
           | Rejected _ => setError (Some ("Failed to upload " ++ name file)) st
           end)
  end.

(** [handleUpload], followed to the end of the refetch it starts in its
    last statement. *)
Definition handleUpload (files : list File) (st : State) : Eff Server State :=
  st1 <- upload_loop files (setError None (setUploading true st)) ;;
  fetchDocuments (setUploading false st1).

(** [handleDelete]; [confirmed] is what [window.confirm] answered. *)
Definition handleDelete (confirmed : bool) (documentId : string) (st : State)
  : Eff Server State :=
  if negb confirmed then ret st
  else
    o <- ServicesApi.deleteDocument serve documentId ;;
    match o with
    | Resolved _ => fetchDocuments st
    | Rejected _ => ret (setError (Some "Failed to delete document") st)
    end.

Definition handleDrop (files : list File) (st : State) : Eff Server State :=
  handleUpload files (setDragOver false st).

Definition handleFileSelect (files : list File) (st : State) : Eff Server State :=
  handleUpload files st.

End Handlers.

End DocumentPanel.

(** ** App.js: the panel toggle *)

Module AppView.

(** The component tree under [App]: [App]'s own state and the state of
    whichever panel the conditional in [<main>] renders.  The two
    branches are different components, so a change of branch unmounts
    one (its state is gone) and mounts the other with its initial state.
    The document list is [App]'s; the mounted document panel holds it as
    its [documents] prop. *)
Record Tree : Type :=
  { app : App.State;
    chat : option ChatPanel.State;
    panel : option DocumentPanel.State }.

Definition setActivePanelState (p : string) (st : App.State) : App.State :=
  {| App.health := App.health st; App.documents := App.documents st;
     App.activePanel := p |}.

Definition setAppDocuments (docs : JsVal) (st : App.State) : App.State :=
  {| App.health := App.health st; App.documents := docs;
     App.activePanel := App.activePanel st |}.

(** [activePanel === 'chat'] *)
Definition shows_chat (st : App.State) : bool :=
  (App.activePanel st =? "chat")%string.

Definition initial : Tree :=
  {| app := App.initial; chat := Some ChatPanel.initial; panel := None |}.

(** [setActivePanel(p)], as the two header buttons call it.  Setting the
    value already held renders nothing anew.  Mounting the document
    panel runs its effect, [fetchDocuments]. *)
Definition setActivePanel {Server : Type}
    (serve : Request -> Server -> Server * Outcome) (p : string) (t : Tree)
  : Eff Server Tree :=
  if (App.activePanel (app t) =? p)%string then ret t
  else
    let app' := setActivePanelState p (app t) in
    if Bool.eqb (shows_chat (app t)) (shows_chat app')
    then ret {| app := app'; chat := chat t; panel := panel t |}
    else if shows_chat app'
    then ret {| app := app'; chat := Some ChatPanel.initial; panel := None |}
    else
      st <- DocumentPanel.fetchDocuments serve
              {| DocumentPanel.documents := App.documents app';
                 DocumentPanel.uploading := false;
                 DocumentPanel.error := None;
                 DocumentPanel.dragOver := false |} ;;
      ret {| app := setAppDocuments (DocumentPanel.documents st) app';
             chat := None; panel := Some st |}.

End AppView.

(** ** The server side of the REST API

    The Django backend is not among the frontend sources; what the
    properties below need of it is written down from the specification. *)

Module Backend.

(** Modelled from the spec: the Document status of section 3; the
    backend code is missing. *)
Inductive Status : Type := pending | processing | completed | failed.

(** Modelled from the spec: the Document record of section 3 (timestamp
    and error message left out); the backend code is missing. *)
Record Document : Type :=
  { id : Z; original_filename : string; file_size : Z;
    page_count : Z; chunk_count : Z; status : Status }.

(** Modelled from the spec: the persisted Document records, with the
    next opaque identifier to hand out; the backend code is missing. *)
Record Store : Type := { documents : list Document; next_id : Z }.

(** Modelled from the spec: the configured maximum upload size, 50 MB,
    in the 1024-based megabytes [formatFileSize] displays; the backend
    settings are missing. *)
Definition MAX_UPLOAD_BYTES : Z := 50 * 1024 * 1024.

(** Modelled from the spec: the preconditions of section 4.1, extension
    [.pdf] and size at most the maximum; the upload view is missing. *)
Definition valid_upload (f : File) : bool :=
  endsWith (toLowerCase (name f)) ".pdf" && (size f <=? MAX_UPLOAD_BYTES).

(** Modelled from the spec: [createPending(filename, size)] of section
    4.5, a new record with status pending and no pages or chunks yet;
    the lifecycle manager is missing. *)
Definition createPending (filename : string) (bytes : Z) (s : Store) : Store * Document :=
  let d := {| id := next_id s; original_filename := filename; file_size := bytes;
              page_count := 0; chunk_count := 0; status := pending |} in
  ({| documents := (documents s ++ [d])%list; next_id := next_id s + 1 |}, d).

(** Modelled from the spec: the status names of section 3; the
    serializers are missing. *)
Definition status_name (st : Status) : string :=
  match st with
  | pending => "pending"
  | processing => "processing"
  | completed => "completed"
  | failed => "failed"
  end.

(** Modelled from the spec: the Document summary fields of section 6;
    the serializers are missing. *)
Definition summary (d : Document) : JsVal :=
  JObj [("id", JNum (id d)); ("original_filename", JStr (original_filename d));
        ("file_size", JNum (file_size d)); ("page_count", JNum (page_count d));
        ("chunk_count", JNum (chunk_count d));
        ("status", JStr (status_name (status d)))].

(** Modelled from the spec: POST /documents rejects non-PDF or oversize
    input with a client error before any Document is persisted, and
    otherwise answers with the created summary; the upload view is
    missing. *)
Definition upload (f : File) (s : Store) : Store * Outcome :=
  if valid_upload f
  then let (s', d) := createPending (name f) (size f) s in (s', Resolved (summary d))
  else (s, Rejected (HttpError 400)).

(** Modelled from the spec: GET /documents answers with the array of
    Document summaries; the list view is missing. *)
Definition list_documents (s : Store) : Store * Outcome :=
  (s, Resolved (JArr (map summary (documents s)))).

(** Modelled from the spec: the documents route of section 6, with or
    without the trailing slash the client writes; the URL routing is
    missing. *)
Definition is_documents_path (p : string) : bool :=
  ((p =? "/documents") || (p =? "/documents/"))%string.

(** Modelled from the spec: the upload and listing rows of the REST API
    table; any other request is answered 404 here.  The views are
    missing. *)
Definition serve (r : Request) (s : Store) : Store * Outcome :=
  match method r, body r with
  | POST, FormData field f =>
      if is_documents_path (path r) && (field =? "file")%string
      then upload f s
      else (s, Rejected (HttpError 404))
  | GET, NoBody =>
      if is_documents_path (path r) then list_documents s
      else (s, Rejected (HttpError 404))
  | _, _ => (s, Rejected (HttpError 404))
  end.

(** Modelled from the spec: the default [top_k] of section 4.3 step 3;
    the query orchestrator is missing. *)
Definition DEFAULT_TOP_K : nat := 3.

(** Modelled from the spec: [top_k] is optional in the body of POST
    /query and defaults to 3; the query view is missing. *)
Definition resolve_top_k (payload : JsVal) : nat :=
  match get_prop_opt payload "top_k" with
  | JNum k => Z.to_nat k
  | _ => DEFAULT_TOP_K
  end.

(** Modelled from the spec: the Chunk of section 3, as far as ranking
    looks at it; the vector store is missing. *)
Record Chunk : Type := { ordinal : nat; page_number : Z; text : string }.

(** Modelled from the spec: a search result, a chunk with its relevance
    score; the vector store is missing. *)
Definition Hit : Type := (Chunk * Q)%type.

(** Modelled from the spec: descending similarity, ties broken by the
    lower chunk ordinal (section 4.2); the vector store is missing. *)
Definition ranks_before (a b : Hit) : bool :=
  if Qeq_bool (snd a) (snd b)
  then (ordinal (fst a) <=? ordinal (fst b))%nat
  else Qle_bool (snd b) (snd a).

(** Modelled from the spec: insertion into a ranked list of hits; the
    vector store is missing. *)
Fixpoint insert_hit (h : Hit) (l : list Hit) : list Hit :=
  match l with
  | [] => [h]
  | x :: rest => if ranks_before h x then h :: l else x :: insert_hit h rest
  end.

(** Modelled from the spec: the hits in rank order; the vector store is
    missing. *)
Fixpoint rank (l : list Hit) : list Hit :=
  match l with
  | [] => []
  | h :: rest => insert_hit h (rank rest)
  end.

(** Modelled from the spec: [search] of section 4.2 returns at most
    [top_k] results ordered by descending similarity; the vector store
    is missing. *)
Definition search (index : list Chunk) (similarity : Chunk -> Q) (top_k : nat)
  : list Hit :=
  firstn top_k (rank (map (fun c => (c, similarity c)) index)).

(** Modelled from the spec: step 3 of section 4.3, retrieval for one
    POST /query body; the query orchestrator is missing. *)
Definition retrieve (index : list Chunk) (similarity : Chunk -> Q) (payload : JsVal)
  : list Hit :=
  search index similarity (resolve_top_k payload).

(** Modelled from the spec: the message roles of section 3; the backend
    models are missing. *)
Inductive Role : Type := user | assistant.

(** Modelled from the spec: the ChatMessage of section 3 (timestamp left
    out); the backend models are missing. *)
Record ChatMessage : Type :=
  { msg_role : Role; msg_content : string;
    msg_sources : list Hit; msg_error : bool }.

(** Modelled from the spec: the ChatSession of section 3, an identifier
    and an append-only log; the backend models are missing. *)
Record ChatSession : Type := { session_id : Z; log : list ChatMessage }.

(** Modelled from the spec: the black boxes of section 6 and the
    configured prompt window of section 4.3.  [relevance] is the
    similarity of the embedded question to a chunk, [generate] is the
    Generator on the question, the retrieved hits and the window of prior
    messages, and fails with [None]; their code is missing. *)
Record Collaborators : Type :=
  { relevance : string -> Chunk -> Q;
    generate : string -> list Hit -> list ChatMessage -> option string;
    history_window : nat }.

(** Modelled from the spec: what the backend holds, the documents, the
    chunks of the Vector Index and the sessions; the backend code is
    missing. *)
Record System : Type :=
  { store : Store; chunks : list Chunk;
    sessions : list ChatSession; next_session : Z }.

(** Modelled from the spec: [get(id)] of the Session Manager (section
    4.4); its code is missing. *)
Fixpoint find_session (id : Z) (l : list ChatSession) : option ChatSession :=
  match l with
  | [] => None
  | ses :: rest => if session_id ses =? id then Some ses else find_session id rest
  end.

(** Modelled from the spec: step 1 of section 4.3.  A given id that
    exists is used, a given id that is unknown fails with NotFound, and
    without an id a new session is created; the orchestrator is missing. *)
Definition resolve_session (sid : JsVal) (s : System) : option (System * ChatSession) :=
  match sid with
  | JUndefined | JNull =>
      let fresh := {| session_id := next_session s; log := [] |} in
      Some ({| store := store s; chunks := chunks s;
               sessions := (sessions s ++ [fresh])%list;
               next_session := next_session s + 1 |}, fresh)
  | JNum id =>
      match find_session id (sessions s) with
      | Some ses => Some (s, ses)
      | None => None
      end
  | _ => None
  end.

(** Modelled from the spec: [appendMessage] of section 4.4, twice, for
    the question and the answer of one turn; its code is missing. *)
Fixpoint append_exchange (id : Z) (asked answered : ChatMessage)
    (l : list ChatSession) : list ChatSession :=
  match l with
  | [] => []
  | ses :: rest =>
      (if session_id ses =? id
       then {| session_id := id; log := (log ses ++ [asked; answered])%list |}
       else ses) :: append_exchange id asked answered rest
  end.

(** Modelled from the spec: the trailing window of a log (section 4.3
    step 4); the orchestrator is missing. *)
Definition trailing (n : nat) (l : list ChatMessage) : list ChatMessage :=
  skipn (length l - n) l.

(** Modelled from the spec: the explanatory message recorded when the
    Generator fails (section 4.3); the wording is not specified and the
    orchestrator is missing. *)
Definition generator_error_text : string :=
  "The language model could not be reached.".

(** Modelled from the spec: a Source citation of section 3 as the
    response of POST /query carries it (section 6); the serializers are
    missing. *)
Definition source_json (h : Hit) : JsVal :=
  JObj [("page_number", JNum (page_number (fst h)));
        ("relevance_score", number_of_Q (snd h));
        ("content", JStr (text (fst h)))].

(** Modelled from the spec: step 3 of section 4.3, the chunks retrieved
    as grounding context for a question; the orchestrator is missing. *)
Definition grounding (c : Collaborators) (top_k : nat) (question : string)
    (s : System) : list Hit :=
  search (chunks s) (relevance c question) top_k.

(** Modelled from the spec: [ask] of section 4.3 with [top_k] resolved.
    The session is resolved, the chunks retrieved, the Generator invoked
    and the two messages appended; a Generator failure is recorded as an
    error-flagged message without sources and still answered.  The
    orchestrator is missing. *)
Definition ask_k (c : Collaborators) (top_k : nat) (question : string)
    (sid : JsVal) (s : System) : System * Outcome :=
  match resolve_session sid s with
  | None => (s, Rejected (HttpError 404))
  | Some (s1, ses) =>
      let hits := grounding c top_k question s in
      let window := trailing (history_window c) (log ses) in
      let asked := {| msg_role := user; msg_content := question;
                      msg_sources := []; msg_error := false |} in
      let answered :=
        match generate c question hits window with
        | Some a => {| msg_role := assistant; msg_content := a;
                       msg_sources := hits; msg_error := false |}
        | None => {| msg_role := assistant; msg_content := generator_error_text;
                     msg_sources := []; msg_error := true |}
        end in
      ({| store := store s1; chunks := chunks s1;
          sessions := append_exchange (session_id ses) asked answered (sessions s1);
          next_session := next_session s1 |},
       Resolved (JObj [("answer", JStr (msg_content answered));
                       ("session_id", JNum (session_id ses));
                       ("sources", JArr (map source_json (msg_sources answered)))]))
  end.

(** Modelled from the spec: the body of POST /query (section 6), a
    question with optional [session_id] and [top_k]; a body without a
    question is a malformed query.  The query view is missing. *)
Definition ask (c : Collaborators) (payload : JsVal) (s : System) : System * Outcome :=
  match get_prop_opt payload "question" with
  | JStr question =>
      ask_k c (resolve_top_k payload) question (get_prop_opt payload "session_id") s
  | _ => (s, Rejected (HttpError 400))
  end.

(** Modelled from the spec: the query route of section 6, with or
    without the trailing slash the client writes; the URL routing is
    missing. *)
Definition is_query_path (p : string) : bool :=
  ((p =? "/query") || (p =? "/query/"))%string.

(** Modelled from the spec: the backend on all the routes modelled, POST
    /query next to the document routes of [serve]; the views are missing. *)
Definition serve_all (c : Collaborators) (r : Request) (s : System) : System * Outcome :=
  match method r, body r with
  | POST, Json payload =>
      if is_query_path (path r) then ask c payload s
      else (s, Rejected (HttpError 404))
  | _, _ =>
      let (st, o) := serve r (store s) in
      ({| store := st; chunks := chunks s;
          sessions := sessions s; next_session := next_session s |}, o)
  end.

End Backend.

(** ** The operations shared by the two client modules *)

Inductive Operation : Type :=
| OpUpload (file : File)
| OpList
| OpDelete (documentId : string)
| OpQuery (question : string) (extra : JsVal)
| OpHealth.

(** The request [services/api.js] issues; [extra] is [sessionId]. *)
Definition services_request (op : Operation) : Request :=
  match op with
  | OpUpload file => ServicesApi.uploadDocument_request file
  | OpList => ServicesApi.listDocuments_request
  | OpDelete documentId => ServicesApi.deleteDocument_request documentId
  | OpQuery question sessionId => ServicesApi.askQuestion_request question sessionId
  | OpHealth => ServicesApi.checkHealth_request
  end.

(** The request [api.js] issues; [extra] is [topK]. *)
Definition legacy_request (op : Operation) : Request :=
  match op with
  | OpUpload file => Api.uploadDocument_request file
  | OpList => Api.getDocuments_request
  | OpDelete docId => Api.deleteDocument_request docId
  | OpQuery question topK => Api.query_request question topK
  | OpHealth => Api.healthCheck_request
  end.

(** The rows of the REST API table of the specification (section 6),
    with [{id}] filled in. *)
Definition spec_rest_table (op : Operation) : Method * string :=
  match op with
  | OpUpload _ => (POST, "/documents")
  | OpList => (GET, "/documents")
  | OpDelete documentId => (DELETE, "/documents/" ++ documentId)
  | OpQuery _ _ => (POST, "/query")
  | OpHealth => (GET, "/health")
  end.

(** The two modules agree on an operation, as the specification words
    it: same method, same path, and both as in the table. *)
Definition spec_same_request (op : Operation) : Prop :=
  method (legacy_request op) = method (services_request op) /\
  path (legacy_request op) = path (services_request op) /\
  (method (services_request op), path (services_request op)) = spec_rest_table op.

Definition is_upload (op : Operation) : bool :=
  match op with
  | OpUpload _ => true
  | _ => false
  end.

(** The listing request of [fetchDocuments]. *)
Definition is_listing (r : Request) : bool :=
  match method r with
  | GET => (path r =? "/documents/")%string
  | _ => false
  end.

(** The message [upload_loop] records for a file that did not go through. *)
Definition upload_failure_message (f : File) : string :=
  if DocumentPanel.isPdf f then ("Failed to upload " ++ name f)%string
  else "Only PDF files are supported"%string.

(** Whether a JSON payload has the key at all. *)
Definition has_key (k : string) (v : JsVal) : bool :=
  match v with
  | JObj fields => existsb (fun kv => (fst kv =? k)%string) fields
  | _ => false
  end.

(** A backend that never answers in time, and one that echoes a fixed
    body; used to run the handlers on concrete inputs. *)
Definition down_server (r : Request) (s : unit) : unit * Outcome :=
  (s, Rejected Timeout).

Definition fixed_server (data : JsVal) (r : Request) (s : unit) : unit * Outcome :=
  (s, Resolved data).

Definition fresh_net {Server : Type} (b : Server) : Net Server :=
  {| backend := b; sent := [] |}.

(** Two well-formed query responses: one whose session id is the number
    0, one whose session id is the string s1. *)
Definition zero_id_response : JsVal :=
  JObj [("answer", JStr "Hello."); ("session_id", JNum 0); ("sources", JArr [])].

Definition s1_response : JsVal :=
  JObj [("answer", JStr "Hello."); ("session_id", JStr "s1"); ("sources", JArr [])].

(** A health body as the REST API table describes it. *)
Definition healthy_response : JsVal :=
  JObj [("status", JStr "ok"); ("ollama_available", JBool true);
        ("available_models", JArr [JStr "llama3.2"])].

(** A backend with four indexed chunks, the earlier the more relevant, no
    session yet and a Generator that answers; used to run a query. *)
Definition demo_collaborators : Backend.Collaborators :=
  {| Backend.relevance := fun _ c => 1 # Pos.of_succ_nat (Backend.ordinal c);
     Backend.generate := fun _ _ _ => Some "See the cited pages.";
     Backend.history_window := 4 |}.

Definition demo_system : Backend.System :=
  {| Backend.store := {| Backend.documents := []; Backend.next_id := 1 |};
     Backend.chunks :=
       [{| Backend.ordinal := 2; Backend.page_number := 2; Backend.text := "c" |};
        {| Backend.ordinal := 0; Backend.page_number := 1; Backend.text := "a" |};
        {| Backend.ordinal := 3; Backend.page_number := 2; Backend.text := "d" |};
        {| Backend.ordinal := 1; Backend.page_number := 1; Backend.text := "b" |}];
     Backend.sessions := []; Backend.next_session := 1 |}.

(** * Properties *)

(** ** Strings *)

Example trim_inner_kept : trim "  what is  RAG?  " = "what is  RAG?".
Proof. reflexivity. Qed.

Example trim_blank : trim "   " = "".
Proof. reflexivity. Qed.

Example endsWith_upper : endsWith (toLowerCase "Report.PDF") ".pdf" = true.
Proof. reflexivity. Qed.

Example endsWith_txt : endsWith (toLowerCase "notes.txt") ".pdf" = false.
Proof. reflexivity. Qed.

Example endsWith_short : endsWith (toLowerCase "pdf") ".pdf" = false.
Proof. reflexivity. Qed.

Lemma truthy_JStr (s : string) : truthy (JStr s) = true <-> s <> "".
Proof.
  simpl. rewrite negb_true_iff. apply String.eqb_neq.
Qed.

(** ** ChatPanel: [handleSubmit] and [handleNewChat] *)

Section Chat.
Import ChatPanel.
Local Open Scope list_scope.
Context {Server : Type} (serve : Request -> Server -> Server * Outcome).

Lemma handleSubmit_begin_guarded (st : State) :
  trim (input st) = "" \/ loading st = true ->
  handleSubmit_begin st = (st, None).
Proof.
  unfold handleSubmit_begin. intros [H | H]; rewrite H.
  - reflexivity.
  - now rewrite orb_true_r.
Qed.

Lemma handleSubmit_begin_accepted (st : State) :
  trim (input st) <> "" -> loading st = false ->
  handleSubmit_begin st =
    ({| messages := messages st ++ [user_message (trim (input st))];
        input := ""; loading := true; sessionId := sessionId st |},
     Some (trim (input st), sessionId st)).
Proof.
  intros Hq Hl. unfold handleSubmit_begin.
  apply truthy_JStr in Hq. rewrite Hq, Hl. reflexivity.
Qed.

(** Both phases only ever append to the log they find. *)
Lemma handleSubmit_begin_appends (st : State) :
  exists new, messages (fst (handleSubmit_begin st)) = messages st ++ new.
Proof.
  unfold handleSubmit_begin.
  destruct (negb (truthy (JStr (trim (input st)))) || loading st).
  - exists []. now rewrite app_nil_r.
  - eexists. reflexivity.
Qed.

Lemma handleSubmit_resume_appends (o : Outcome) (st : State) :
  exists m, role m = assistant /\
    messages (handleSubmit_resume o st) = messages st ++ [m].
Proof.
  unfold handleSubmit_resume.
  destruct o as [response | why];
    [destruct (get_prop response "session_id") |];
    eexists; split; try reflexivity; reflexivity.
Qed.

Lemma handleSubmit_resume_loading (o : Outcome) (st : State) :
  loading (handleSubmit_resume o st) = false.
Proof. reflexivity. Qed.

Lemma get_prop_not_nullish (d : JsVal) (k : string) :
  nullish d = false -> get_prop d k = Some (get_prop_opt d k).
Proof.
  unfold get_prop_opt. destruct d; simpl; congruence.
Qed.

(** C9: a submit whose input trims to the empty string, or that arrives
    while a query is in flight, returns at the guard: no request is sent
    and the whole component state, message list and session id
    included, is left as it was. *)
Theorem handleSubmit_guard_is_noop (st : State) (w : Net Server) :
  trim (input st) = "" \/ loading st = true ->
  handleSubmit serve st w = (st, w) /\
  sent (snd (handleSubmit serve st w)) = sent w /\
  messages (fst (handleSubmit serve st w)) = messages st /\
  sessionId (fst (handleSubmit serve st w)) = sessionId st.
Proof.
  intros H. unfold handleSubmit.
  rewrite (handleSubmit_begin_guarded st H). unfold ret. simpl. auto.
Qed.

Lemma handleSubmit_accepted (st : State) (w : Net Server) :
  trim (input st) <> "" -> loading st = false ->
  handleSubmit serve st w =
    (handleSubmit_resume
       (fst (ServicesApi.askQuestion serve (trim (input st)) (sessionId st) w))
       (fst (handleSubmit_begin st)),
     snd (ServicesApi.askQuestion serve (trim (input st)) (sessionId st) w)).
Proof.
  intros Hq Hl. unfold handleSubmit.
  rewrite (handleSubmit_begin_accepted st Hq Hl). unfold bind, ret. simpl.
  destruct (ServicesApi.askQuestion serve (trim (input st)) (sessionId st) w).
  reflexivity.
Qed.

(** C1: when the query request fails, the log gains the user's question
    followed by one assistant message, and nothing else: the message is
    flagged as an error, has no sources, and its content is the fixed
    sentence that tells the user an error occurred and to try again,
    never anything taken from a response.  The stored session id is
    untouched and loading is cleared. *)
Theorem handleSubmit_failure_recorded (st : State) (w : Net Server) (why : Failure) :
  trim (input st) <> "" -> loading st = false ->
  fst (ServicesApi.askQuestion serve (trim (input st)) (sessionId st) w)
    = Rejected why ->
  let st' := fst (handleSubmit serve st w) in
  messages st' =
    messages st ++
    [{| role := user; content := JStr (trim (input st));
        sources := None; error := None |};
     {| role := assistant;
        content :=
          JStr "Sorry, I encountered an error processing your question. Please try again.";
        sources := None; error := Some true |}] /\
  sessionId st' = sessionId st /\
  loading st' = false.
Proof.
  intros Hq Hl Hfail. cbv zeta.
  rewrite (handleSubmit_accepted st w Hq Hl), Hfail.
  rewrite (handleSubmit_begin_accepted st Hq Hl). simpl.
  rewrite <- app_assoc. simpl. auto.
Qed.

(** C4: a completed ask appends the user message carrying the question
    and then the assistant message carrying the answer, two messages in
    that order, after the messages that were there, which keep their
    content and position. *)
Theorem handleSubmit_appends_exchange (st : State) (w : Net Server) (d : JsVal) :
  trim (input st) <> "" -> loading st = false ->
  fst (ServicesApi.askQuestion serve (trim (input st)) (sessionId st) w)
    = Resolved d ->
  nullish d = false ->
  let st' := fst (handleSubmit serve st w) in
  messages st' =
    messages st ++ [user_message (trim (input st)); answer_message d] /\
  map role [user_message (trim (input st)); answer_message d] = [user; assistant] /\
  content (user_message (trim (input st))) = JStr (trim (input st)) /\
  content (answer_message d) = get_prop_opt d "answer" /\
  length (messages st') = (length (messages st) + 2)%nat /\
  firstn (length (messages st)) (messages st') = messages st.
Proof.
  intros Hq Hl Hok Hd. cbv zeta.
  rewrite (handleSubmit_accepted st w Hq Hl), Hok.
  rewrite (handleSubmit_begin_accepted st Hq Hl).
  unfold handleSubmit_resume.
  rewrite (get_prop_not_nullish d "session_id" Hd). simpl.
  rewrite <- app_assoc. simpl.
  repeat split.
  - rewrite length_app. reflexivity.
  - rewrite firstn_app, Nat.sub_diag, firstn_all. simpl. apply app_nil_r.
Qed.

(** The ask issued once the user has typed [q] is called with the
    trimmed text and the session id stored at that moment. *)
Lemma next_ask_arguments (st : State) (q : string) :
  trim q <> "" -> loading st = false ->
  snd (handleSubmit_begin (setInput q st)) = Some (trim q, sessionId st).
Proof.
  intros Hq Hl.
  rewrite handleSubmit_begin_accepted by (simpl; auto). reflexivity.
Qed.

(** C5: the session id is a field of the component state and an argument
    of every ask, nothing else holds it.  After a successful response the
    stored id is the response's [session_id]; the next ask is called with
    that id and its payload carries it exactly when it is truthy, and has
    no [session_id] otherwise.  A failed ask leaves the stored id as it
    was.  A new chat resets the stored id to [null], and an ask issued
    from that state has no [session_id] in its payload. *)
Theorem session_id_threading (st : State) (d : JsVal) (q : string) :
  nullish d = false -> trim q <> "" ->
  let st1 := handleSubmit_resume (Resolved d) st in
  let sid := get_prop_opt d "session_id" in
  let payload := ServicesApi.askQuestion_payload (trim q) sid in
  sessionId st1 = sid /\
  snd (handleSubmit_begin (setInput q st1)) = Some (trim q, sid) /\
  (if truthy sid
   then payload = JObj [("question", JStr (trim q)); ("session_id", sid)]
   else payload = JObj [("question", JStr (trim q))]) /\
  has_key "session_id" payload = truthy sid /\
  (forall why, sessionId (handleSubmit_resume (Rejected why) st) = sessionId st) /\
  sessionId (handleNewChat st1) = JNull /\
  snd (handleSubmit_begin (setInput q (handleNewChat st1))) = Some (trim q, JNull) /\
  ServicesApi.askQuestion_payload (trim q) JNull = JObj [("question", JStr (trim q))].
Proof.
  intros Hd Hq. cbv zeta.
  assert (Hs : sessionId (handleSubmit_resume (Resolved d) st)
               = get_prop_opt d "session_id").
  { unfold handleSubmit_resume.
    now rewrite (get_prop_not_nullish d "session_id" Hd). }
  split; [exact Hs |].
  split.
  { rewrite (next_ask_arguments _ q Hq (handleSubmit_resume_loading _ _)).
    now rewrite Hs. }
  split.
  { unfold ServicesApi.askQuestion_payload.
    destruct (get_prop_opt d "session_id") as [| | b | n | s | l | l | x]; simpl;
      try reflexivity.
    - destruct b; reflexivity.
    - destruct (n =? 0); reflexivity.
    - destruct (s =? "")%string; reflexivity.
    - destruct (Qeq_bool x 0); reflexivity. }
  split.
  { unfold ServicesApi.askQuestion_payload.
    destruct (get_prop_opt d "session_id") as [| | b | n | s | l | l | x]; simpl;
      try reflexivity.
    - destruct b; reflexivity.
    - destruct (n =? 0); reflexivity.
    - destruct (s =? "")%string; reflexivity.
    - destruct (Qeq_bool x 0); reflexivity. }
  split; [reflexivity |].
  split; [reflexivity |].
  split; [| reflexivity].
  now rewrite (next_ask_arguments _ q Hq) by reflexivity.
Qed.

End Chat.

(** *** Concrete runs of the chat handlers *)

Lemma handleSubmit_guard_is_noop_witness :
  ChatPanel.handleSubmit down_server (ChatPanel.setInput "   " ChatPanel.initial) (fresh_net tt)
  = (ChatPanel.setInput "   " ChatPanel.initial, fresh_net tt).
Proof.
  apply (handleSubmit_guard_is_noop down_server
           (ChatPanel.setInput "   " ChatPanel.initial) (fresh_net tt)).
  left. reflexivity.
Defined.

Lemma handleSubmit_failure_recorded_witness :
  ChatPanel.messages
    (fst (ChatPanel.handleSubmit down_server
            {| ChatPanel.messages := [ChatPanel.user_message "hello";
                                      ChatPanel.answer_message s1_response];
               ChatPanel.input := " why? "; ChatPanel.loading := false;
               ChatPanel.sessionId := JStr "s1" |} (fresh_net tt)))
  = [ChatPanel.user_message "hello"; ChatPanel.answer_message s1_response;
     {| ChatPanel.role := ChatPanel.user; ChatPanel.content := JStr "why?";
        ChatPanel.sources := None; ChatPanel.error := None |};
     {| ChatPanel.role := ChatPanel.assistant;
        ChatPanel.content :=
          JStr "Sorry, I encountered an error processing your question. Please try again.";
        ChatPanel.sources := None; ChatPanel.error := Some true |}].
Proof.
  apply (handleSubmit_failure_recorded down_server
           {| ChatPanel.messages := [ChatPanel.user_message "hello";
                                     ChatPanel.answer_message s1_response];
              ChatPanel.input := " why? "; ChatPanel.loading := false;
              ChatPanel.sessionId := JStr "s1" |} (fresh_net tt) Timeout).
  - vm_compute. discriminate.
  - reflexivity.
  - reflexivity.
Defined.

Lemma handleSubmit_appends_exchange_witness :
  ChatPanel.messages
    (fst (ChatPanel.handleSubmit (fixed_server s1_response)
            (ChatPanel.setInput "why?" ChatPanel.initial) (fresh_net tt)))
  = [ChatPanel.user_message "why?"; ChatPanel.answer_message s1_response].
Proof.
  apply (handleSubmit_appends_exchange (fixed_server s1_response)
           (ChatPanel.setInput "why?" ChatPanel.initial) (fresh_net tt) s1_response).
  - vm_compute. discriminate.
  - reflexivity.
  - reflexivity.
  - reflexivity.
Defined.

Lemma session_id_threading_witness :
  ChatPanel.sessionId
    (ChatPanel.handleSubmit_resume (Resolved s1_response) ChatPanel.initial)
  = JStr "s1".
Proof.
  apply (session_id_threading ChatPanel.initial s1_response "next").
  - reflexivity.
  - vm_compute. discriminate.
Defined.

(** C5, as worded, fails twice.  First, a returned session id of 0 is
    stored but not carried: the ask that follows leaves [session_id] out.
    Second, a new chat started while a query is in flight is followed by
    the resumption of that query, which stores the old session id again:
    the first ask after the new chat carries s1. *)
Lemma session_id_not_always_carried :
  (let st1 := fst (ChatPanel.handleSubmit (fixed_server zero_id_response)
                     (ChatPanel.setInput "first" ChatPanel.initial) (fresh_net tt)) in
   get_prop zero_id_response "session_id" = Some (JNum 0) /\
   ChatPanel.sessionId st1 = JNum 0 /\
   sent (snd (ChatPanel.handleSubmit (fixed_server zero_id_response)
                (ChatPanel.setInput "second" st1) (fresh_net tt)))
   = [{| method := POST; path := "/query/";
         body := Json (JObj [("question", JStr "second")]) |}]) /\
  (let in_flight := fst (ChatPanel.handleSubmit_begin
                           (ChatPanel.setInput "first" ChatPanel.initial)) in
   let reset := ChatPanel.handleNewChat in_flight in
   let resumed := ChatPanel.handleSubmit_resume (Resolved s1_response) reset in
   ChatPanel.sessionId reset = JNull /\
   snd (ChatPanel.handleSubmit_begin (ChatPanel.setInput "second" resumed))
   = Some ("second", JStr "s1") /\
   ServicesApi.askQuestion_payload "second" (JStr "s1")
   = JObj [("question", JStr "second"); ("session_id", JStr "s1")]).
Proof.
  vm_compute. repeat split.
Qed.

(** ** The network effect *)

Section Network.
Context {Server : Type} (serve : Request -> Server -> Server * Outcome).

Lemma send_unfold (r : Request) (w : Net Server) :
  send serve r w =
    (snd (serve r (backend w)),
     {| backend := fst (serve r (backend w)); sent := (sent w ++ [r])%list |}).
Proof.
  unfold send. destruct (serve r (backend w)). reflexivity.
Qed.

Lemma bind_unfold {A B : Type} (c : Eff Server A) (k : A -> Eff Server B)
    (w : Net Server) :
  bind c k w = k (fst (c w)) (snd (c w)).
Proof.
  unfold bind. destruct (c w). reflexivity.
Qed.

End Network.

(** ** DocumentPanel: [handleUpload] *)

Section Documents.
Import DocumentPanel.
Local Open Scope list_scope.
Context {Server : Type} (serve : Request -> Server -> Server * Outcome).

Lemma upload_loop_cons (f : File) (rest : list File) (st : State) (w : Net Server) :
  upload_loop serve (f :: rest) st w =
    if isPdf f
    then upload_loop serve rest
           (match fst (ServicesApi.uploadDocument serve f w) with
            | Resolved _ => st
            | Rejected _ => setError (Some ("Failed to upload " ++ name f)%string) st
            end)
           (snd (ServicesApi.uploadDocument serve f w))
    else upload_loop serve rest (setError (Some "Only PDF files are supported") st) w.
Proof.
  simpl. destruct (isPdf f); simpl; [| reflexivity].
  now rewrite bind_unfold.
Qed.

Lemma upload_loop_app (pre post : list File) (st : State) (w : Net Server) :
  upload_loop serve (pre ++ post) st w =
    upload_loop serve post (fst (upload_loop serve pre st w))
                           (snd (upload_loop serve pre st w)).
Proof.
  revert st w. induction pre as [| f pre IH]; intros st w.
  - reflexivity.
  - rewrite <- app_comm_cons, !upload_loop_cons.
    destruct (isPdf f); apply IH.
Qed.

(** The loop touches no state cell but [error]. *)
Lemma upload_loop_frame (files : list File) (st : State) (w : Net Server) :
  documents (fst (upload_loop serve files st w)) = documents st /\
  uploading (fst (upload_loop serve files st w)) = uploading st /\
  dragOver (fst (upload_loop serve files st w)) = dragOver st.
Proof.
  revert st w. induction files as [| f files IH]; intros st w.
  - simpl. auto.
  - rewrite upload_loop_cons.
    destruct (isPdf f);
      [destruct (fst (ServicesApi.uploadDocument serve f w)) |];
      match goal with
      | |- context [upload_loop serve files ?s ?v] =>
          destruct (IH s v) as (Hd & Hu & Hg); rewrite Hd, Hu, Hg
      end; auto.
Qed.

(** What reaches the network does not depend on the component state. *)
Lemma upload_loop_net (files : list File) (st st' : State) (w : Net Server) :
  snd (upload_loop serve files st w) = snd (upload_loop serve files st' w).
Proof.
  revert st st' w. induction files as [| f files IH]; intros st st' w.
  - reflexivity.
  - rewrite !upload_loop_cons. destruct (isPdf f); apply IH.
Qed.

(** What reaches the backend does not depend on the request log. *)
Lemma upload_loop_backend (files : list File) (st st' : State) (w w' : Net Server) :
  backend w = backend w' ->
  backend (snd (upload_loop serve files st w))
  = backend (snd (upload_loop serve files st' w')).
Proof.
  revert st st' w w'. induction files as [| f files IH]; intros st st' w w' Hb.
  - exact Hb.
  - rewrite !upload_loop_cons. destruct (isPdf f).
    + apply IH. unfold ServicesApi.uploadDocument.
      rewrite !send_unfold. simpl. now rewrite Hb.
    + now apply IH.
Qed.

Lemma upload_loop_sent (files : list File) (st : State) (w : Net Server) :
  sent (snd (upload_loop serve files st w)) =
    sent w ++ map ServicesApi.uploadDocument_request (filter isPdf files).
Proof.
  revert st w. induction files as [| f files IH]; intros st w.
  - simpl. now rewrite app_nil_r.
  - rewrite upload_loop_cons. simpl filter. destruct (isPdf f).
    + rewrite IH. unfold ServicesApi.uploadDocument. rewrite send_unfold.
      simpl. now rewrite <- app_assoc.
    + apply IH.
Qed.

Lemma upload_loop_skip (pre post : list File) (f : File) (st : State) (w : Net Server) :
  isPdf f = false ->
  snd (upload_loop serve (pre ++ f :: post) st w)
  = snd (upload_loop serve (pre ++ post) st w).
Proof.
  intros Hf. rewrite !upload_loop_app, upload_loop_cons, Hf.
  apply upload_loop_net.
Qed.

Lemma fetchDocuments_unfold (st : State) (w : Net Server) :
  fetchDocuments serve st w =
    (match snd (serve ServicesApi.listDocuments_request (backend w)) with
     | Resolved docs => setDocuments docs st
     | Rejected _ => setError (Some "Failed to load documents") st
     end,
     {| backend := fst (serve ServicesApi.listDocuments_request (backend w));
        sent := sent w ++ [ServicesApi.listDocuments_request] |}).
Proof.
  unfold fetchDocuments. rewrite bind_unfold.
  unfold ServicesApi.listDocuments. rewrite send_unfold. reflexivity.
Qed.

(** The list shown after a refetch is the backend's answer, or the old
    list when the refetch fails. *)
Lemma fetchDocuments_documents (st : State) (w : Net Server) :
  documents (fst (fetchDocuments serve st w)) =
    match snd (serve ServicesApi.listDocuments_request (backend w)) with
    | Resolved docs => docs
    | Rejected _ => documents st
    end.
Proof.
  rewrite fetchDocuments_unfold. simpl.
  destruct (snd (serve ServicesApi.listDocuments_request (backend w))); reflexivity.
Qed.

Lemma handleUpload_unfold (files : list File) (st : State) (w : Net Server) :
  handleUpload serve files st w =
    fetchDocuments serve
      (setUploading false
         (fst (upload_loop serve files (setError None (setUploading true st)) w)))
      (snd (upload_loop serve files (setError None (setUploading true st)) w)).
Proof.
  unfold handleUpload. now rewrite bind_unfold.
Qed.

Lemma handleUpload_sent (files : list File) (st : State) (w : Net Server) :
  sent (snd (handleUpload serve files st w)) =
    sent w ++ map ServicesApi.uploadDocument_request (filter isPdf files)
           ++ [ServicesApi.listDocuments_request].
Proof.
  rewrite handleUpload_unfold, fetchDocuments_unfold. simpl.
  now rewrite upload_loop_sent, <- app_assoc.
Qed.

Lemma no_listing_among_uploads (files : list File) :
  filter is_listing (map ServicesApi.uploadDocument_request files) = [].
Proof.
  induction files as [| f files IH]; simpl; auto.
Qed.

(** C2: a file whose name does not end in [.pdf], whatever the case of
    its letters, is dropped before [uploadDocument] is called: none of
    the requests issued carries it, the backend and the request log end
    exactly as if the file had not been in the list, and so does the
    document list shown after the refetch.  Submitted alone, it causes
    the listing request and nothing else. *)
Theorem non_pdf_never_uploaded (pre post : list File) (f : File)
    (st : State) (w : Net Server) :
  isPdf f = false ->
  let run := handleUpload serve (pre ++ f :: post) st w in
  let without := handleUpload serve (pre ++ post) st w in
  snd run = snd without /\
  documents (fst run) = documents (fst without) /\
  (forall r field,
      In r (map ServicesApi.uploadDocument_request (filter isPdf (pre ++ f :: post))
            ++ [ServicesApi.listDocuments_request]) ->
      body r <> FormData field f) /\
  handleUpload serve [f] st w =
    fetchDocuments serve
      {| documents := documents st; uploading := false;
         error := Some "Only PDF files are supported"%string;
         dragOver := dragOver st |} w /\
  sent (snd (handleUpload serve [f] st w))
  = sent w ++ [ServicesApi.listDocuments_request].
Proof.
  intros Hf. cbv zeta.
  assert (Hnet : snd (handleUpload serve (pre ++ f :: post) st w)
                 = snd (handleUpload serve (pre ++ post) st w)).
  { rewrite !handleUpload_unfold, !fetchDocuments_unfold. simpl.
    now rewrite (upload_loop_skip pre post f _ w Hf). }
  split; [exact Hnet |].
  split.
  { rewrite !handleUpload_unfold, !fetchDocuments_documents. simpl.
    rewrite (upload_loop_skip pre post f _ w Hf).
    destruct (upload_loop_frame (pre ++ f :: post)
                (setError None (setUploading true st)) w) as (Hd & _).
    destruct (upload_loop_frame (pre ++ post)
                (setError None (setUploading true st)) w) as (Hd' & _).
    now rewrite Hd, Hd'. }
  split.
  { intros r field Hin Hbody.
    apply in_app_or in Hin. destruct Hin as [Hin | [Hin | []]].
    - apply in_map_iff in Hin. destruct Hin as (g & <- & Hg).
      apply filter_In in Hg. destruct Hg as (_ & Hg).
      simpl in Hbody. injection Hbody as _ ->. congruence.
    - subst r. discriminate Hbody. }
  split.
  { rewrite handleUpload_unfold, upload_loop_cons, Hf. reflexivity. }
  rewrite handleUpload_sent. simpl. now rewrite Hf.
Qed.

(** C10: the files of one upload action are taken one after the other.
    The requests issued are one upload per [.pdf] file, in list order,
    followed by exactly one listing request, whatever the backend answers.
    At each file the error cell records a rejected extension or a failed
    upload, and the loop goes on with the files after it either way. *)
Theorem handleUpload_processes_every_file (pre post : list File) (f : File)
    (st : State) (w : Net Server) :
  let st0 := setError None (setUploading true st) in
  let before := upload_loop serve pre st0 w in
  let after := upload_loop serve (pre ++ [f]) st0 w in
  let run := handleUpload serve (pre ++ f :: post) st w in
  let issued := map ServicesApi.uploadDocument_request (filter isPdf (pre ++ f :: post))
                ++ [ServicesApi.listDocuments_request] in
  sent (snd run) = sent w ++ issued /\
  filter is_listing issued = [ServicesApi.listDocuments_request] /\
  error (fst after) =
    (if isPdf f
     then match fst (ServicesApi.uploadDocument serve f (snd before)) with
          | Rejected _ => Some ("Failed to upload " ++ name f)%string
          | Resolved _ => error (fst before)
          end
     else Some "Only PDF files are supported"%string) /\
  sent (snd after) =
    sent (snd before) ++ (if isPdf f then [ServicesApi.uploadDocument_request f] else []) /\
  upload_loop serve (pre ++ f :: post) st0 w
  = upload_loop serve post (fst after) (snd after) /\
  run = fetchDocuments serve (setUploading false (fst (upload_loop serve post (fst after) (snd after))))
          (snd (upload_loop serve post (fst after) (snd after))) /\
  uploading (fst run) = false.
Proof.
  cbv zeta.
  assert (Hsplit : pre ++ f :: post = (pre ++ [f]) ++ post)
    by (now rewrite <- app_assoc).
  split; [apply handleUpload_sent |].
  split.
  { rewrite filter_app, no_listing_among_uploads. reflexivity. }
  split.
  { rewrite upload_loop_app, upload_loop_cons.
    destruct (isPdf f); [| reflexivity].
    simpl. destruct (fst (ServicesApi.uploadDocument serve f _)); reflexivity. }
  split.
  { rewrite (upload_loop_app pre [f]), upload_loop_cons.
    destruct (isPdf f).
    - simpl. unfold ServicesApi.uploadDocument. now rewrite send_unfold.
    - simpl. now rewrite app_nil_r. }
  split.
  { rewrite Hsplit at 1. apply upload_loop_app. }
  split.
  { rewrite handleUpload_unfold. rewrite Hsplit at 1 2.
    now rewrite (upload_loop_app (pre ++ [f]) post). }
  rewrite handleUpload_unfold, fetchDocuments_unfold. simpl.
  destruct (snd (serve ServicesApi.listDocuments_request _)); simpl;
    reflexivity.
Qed.

End Documents.

Lemma non_pdf_never_uploaded_witness :
  sent (snd (DocumentPanel.handleUpload down_server
               [{| name := "notes.txt"; size := 12 |}]
               DocumentPanel.initial (fresh_net tt)))
  = [ServicesApi.listDocuments_request].
Proof.
  apply (non_pdf_never_uploaded down_server [] []
           {| name := "notes.txt"; size := 12 |}
           DocumentPanel.initial (fresh_net tt)).
  reflexivity.
Defined.

(** ** Uploads against the backend of the specification *)

Section Oversize.
Import DocumentPanel.
Local Open Scope list_scope.

Lemma oversize_is_invalid (f : File) :
  Backend.MAX_UPLOAD_BYTES < size f -> Backend.valid_upload f = false.
Proof.
  intros H. unfold Backend.valid_upload.
  apply andb_false_iff. right. now apply Z.leb_gt.
Qed.

Lemma invalid_upload_rejected (f : File) (s : Backend.Store) :
  Backend.valid_upload f = false ->
  Backend.serve (ServicesApi.uploadDocument_request f) s
  = (s, Rejected (HttpError 400)).
Proof.
  intros H. unfold Backend.serve, Backend.upload. simpl. now rewrite H.
Qed.

(** The listing route leaves the store alone. *)
Lemma listing_keeps_store (s : Backend.Store) :
  fst (Backend.serve ServicesApi.listDocuments_request s) = s.
Proof. reflexivity. Qed.

(** C3: a file larger than 50 MB is answered with status 400 and the
    store is handed back as it was, so no Document is created for it.
    Through [handleUpload] the store, and the document list shown after
    the refetch, end exactly as if the file had not been in the list; the
    panel records the failed upload. *)
Theorem oversize_upload_rejected (pre post : list File) (f : File)
    (st : State) (w : Net Backend.Store) :
  Backend.MAX_UPLOAD_BYTES < size f ->
  let run := handleUpload Backend.serve (pre ++ f :: post) st w in
  let without := handleUpload Backend.serve (pre ++ post) st w in
  (forall s, Backend.upload f s = (s, Rejected (HttpError 400))) /\
  (forall s, Backend.serve (ServicesApi.uploadDocument_request f) s
             = (s, Rejected (HttpError 400))) /\
  backend (snd run) = backend (snd without) /\
  documents (fst run) = documents (fst without) /\
  error (fst (handleUpload Backend.serve [f] st w))
  = Some (if isPdf f then ("Failed to upload " ++ name f)%string
          else "Only PDF files are supported"%string).
Proof.
  intros Hsize. cbv zeta.
  pose proof (oversize_is_invalid f Hsize) as Hinv.
  assert (Hback :
    backend (snd (upload_loop Backend.serve (pre ++ f :: post)
                    (setError None (setUploading true st)) w))
    = backend (snd (upload_loop Backend.serve (pre ++ post)
                    (setError None (setUploading true st)) w))).
  { rewrite !upload_loop_app, upload_loop_cons.
    destruct (isPdf f).
    - apply upload_loop_backend.
      unfold ServicesApi.uploadDocument. rewrite send_unfold. simpl backend.
      now rewrite (invalid_upload_rejected f _ Hinv).
    - now apply upload_loop_backend. }
  split.
  { intros s. unfold Backend.upload. now rewrite Hinv. }
  split.
  { intros s. now apply invalid_upload_rejected. }
  split.
  { rewrite !handleUpload_unfold, !fetchDocuments_unfold. simpl backend.
    now rewrite Hback. }
  split.
  { rewrite !handleUpload_unfold, !fetchDocuments_documents.
    rewrite Hback. reflexivity. }
  rewrite handleUpload_unfold, upload_loop_cons.
  destruct (isPdf f); [| reflexivity].
  unfold ServicesApi.uploadDocument. rewrite send_unfold.
  rewrite (invalid_upload_rejected f _ Hinv). reflexivity.
Qed.

End Oversize.

Lemma oversize_upload_rejected_witness :
  Backend.documents
    (backend (snd (DocumentPanel.handleUpload Backend.serve
                     [{| name := "scan.pdf"; size := 60 * 1024 * 1024 |}]
                     DocumentPanel.initial
                     (fresh_net {| Backend.documents := []; Backend.next_id := 1 |}))))
  = [].
Proof.
  pose proof (oversize_upload_rejected [] []
           {| name := "scan.pdf"; size := 60 * 1024 * 1024 |}
           DocumentPanel.initial
           (fresh_net {| Backend.documents := []; Backend.next_id := 1 |})) as H.
  cbv zeta in H.
  destruct H as (_ & _ & Hb & _).
  - reflexivity.
  - exact (f_equal Backend.documents Hb).
Defined.

(** ** App: the health check on mount *)

Section Health.
Import App.
Context {Server : Type} (serve : Request -> Server -> Server * Outcome).

Lemma health_effect_unfold (st : State) (w : Net Server) :
  fst (health_effect serve st w) =
    (match fst (ServicesApi.checkHealth serve w) with
     | Resolved d => setHealth d st
     | Rejected _ => setHealth error_health st
     end, false).
Proof.
  unfold health_effect. rewrite bind_unfold. unfold ret. simpl.
  destruct (fst (ServicesApi.checkHealth serve w)); reflexivity.
Qed.

(** C8: the promise chain of the mount effect always ends fulfilled, so
    a failed health request reaches nobody as an exception.  On failure
    the health state is the fixed object whose [ollama_available] is
    [false], which the status bar shows as Disconnected; on success it is
    the response body, whose [ollama_available] is the boolean the
    backend sent. *)
Theorem health_failure_is_a_flag (st : State) (w : Net Server) :
  (forall d, fst (ServicesApi.checkHealth serve w) = Resolved d ->
             exists b, get_prop d "ollama_available" = Some (JBool b)) ->
  let run := fst (health_effect serve st w) in
  snd run = false /\
  (exists b, StatusBar.ollamaStatus (health (fst run)) = JBool b) /\
  (forall why, fst (ServicesApi.checkHealth serve w) = Rejected why ->
     health (fst run) = error_health /\
     StatusBar.ollamaStatus (health (fst run)) = JBool false /\
     StatusBar.llm_label (health (fst run)) = "Disconnected") /\
  (forall d, fst (ServicesApi.checkHealth serve w) = Resolved d ->
     health (fst run) = d).
Proof.
  intros Hschema. cbv zeta. rewrite health_effect_unfold. simpl.
  split; [reflexivity |].
  destruct (fst (ServicesApi.checkHealth serve w)) as [d | why] eqn:Ho.
  - split.
    + destruct (Hschema d eq_refl) as (b & Hb). exists b.
      unfold StatusBar.ollamaStatus, get_prop_opt. simpl. now rewrite Hb.
    + split; [discriminate | intros d' Hd'; simpl; congruence].
  - split; [exists false; reflexivity |].
    split; [intros ? _; repeat split | discriminate].
Qed.

End Health.

Lemma health_failure_is_a_flag_witness :
  StatusBar.ollamaStatus
    (App.health (fst (fst (App.health_effect (fixed_server healthy_response)
                             App.initial (fresh_net tt)))))
  = JBool true.
Proof.
  destruct (health_failure_is_a_flag (fixed_server healthy_response)
              App.initial (fresh_net tt)) as (_ & _ & _ & Hok).
  - intros d Hd. injection Hd as <-. exists true. reflexivity.
  - rewrite (Hok healthy_response eq_refl). reflexivity.
Defined.

(** ** The two client modules *)

(** C6, as worded, fails already at the health check: [api.js] fetches
    [/health], [services/api.js] gets [/health/]. *)
Lemma health_paths_differ : ~ spec_same_request OpHealth.
Proof.
  unfold spec_same_request. intros (_ & Hpath & _). discriminate Hpath.
Qed.

(** The upload paths differ by more than a slash. *)
Lemma upload_paths (file : File) :
  path (legacy_request (OpUpload file)) = "/documents/upload" /\
  path (services_request (OpUpload file)) = "/documents/".
Proof. split; reflexivity. Qed.

(** C6: for each of the five shared operations the two modules use the
    same HTTP method, the one of the REST API table, and [services/api.js]
    requests the table's path followed by a slash.  For listing,
    deletion, query and health check [api.js] requests the table's path
    itself, so the two paths differ by the trailing slash only. *)
Theorem client_modules_agree_up_to_slash (op : Operation) :
  method (legacy_request op) = method (services_request op) /\
  method (services_request op) = fst (spec_rest_table op) /\
  path (services_request op) = snd (spec_rest_table op) ++ "/" /\
  (is_upload op = false ->
   path (legacy_request op) = snd (spec_rest_table op) /\
   path (services_request op) = path (legacy_request op) ++ "/").
Proof.
  destruct op; simpl; repeat split; try discriminate; try reflexivity.
Qed.

Lemma client_modules_agree_up_to_slash_witness :
  path (services_request (OpDelete "42")) = "/documents/42/" /\
  path (legacy_request (OpDelete "42")) = "/documents/42".
Proof.
  destruct (client_modules_agree_up_to_slash (OpDelete "42"))
    as (_ & _ & Hs & Hl).
  destruct (Hl eq_refl) as (Hl1 & _).
  split.
  - rewrite Hs. reflexivity.
  - rewrite Hl1. reflexivity.
Defined.

(** ** Retrieval depth *)

Lemma askQuestion_payload_no_top_k (question : string) (sessionId : JsVal) :
  get_prop_opt (ServicesApi.askQuestion_payload question sessionId) "top_k"
  = JUndefined /\
  has_key "top_k" (ServicesApi.askQuestion_payload question sessionId) = false.
Proof.
  unfold ServicesApi.askQuestion_payload.
  destruct (truthy (default_param JNull sessionId)); split; reflexivity.
Qed.

Lemma insert_hit_length (h : Backend.Hit) (l : list Backend.Hit) :
  length (Backend.insert_hit h l) = S (length l).
Proof.
  induction l as [| x l IH]; simpl; [reflexivity |].
  destruct (Backend.ranks_before h x); simpl; now rewrite ?IH.
Qed.

Lemma rank_length (l : list Backend.Hit) : length (Backend.rank l) = length l.
Proof.
  induction l as [| h l IH]; simpl; [reflexivity |].
  now rewrite insert_hit_length, IH.
Qed.

Lemma search_length (index : list Backend.Chunk) (similarity : Backend.Chunk -> Q)
    (top_k : nat) :
  length (Backend.search index similarity top_k) = Nat.min top_k (length index).
Proof.
  unfold Backend.search.
  now rewrite length_firstn, rank_length, length_map.
Qed.

Lemma askQuestion_payload_cases (question : string) (sessionId : JsVal) :
  ServicesApi.askQuestion_payload question sessionId =
    (if truthy sessionId
     then JObj [("question", JStr question); ("session_id", sessionId)]
     else JObj [("question", JStr question)]).
Proof.
  unfold ServicesApi.askQuestion_payload.
  destruct sessionId as [| | b | n | t | l | l | x]; simpl; try reflexivity.
  - destruct b; reflexivity.
  - destruct (n =? 0); reflexivity.
  - destruct (t =? "")%string; reflexivity.
  - destruct (Qeq_bool x 0); reflexivity.
Qed.

(** Whatever the session and the Generator do, an answer carries at most
    [top_k] sources. *)
Lemma ask_k_sources (c : Backend.Collaborators) (top_k : nat) (question : string)
    (sid : JsVal) (s : Backend.System) (d : JsVal) :
  snd (Backend.ask_k c top_k question sid s) = Resolved d ->
  exists srcs, get_prop_opt d "sources" = JArr srcs /\ (length srcs <= top_k)%nat.
Proof.
  unfold Backend.ask_k.
  destruct (Backend.resolve_session sid s) as [[s1 ses] |]; [| discriminate].
  cbv zeta. cbn [snd]. intros [= <-].
  destruct (Backend.generate c question _ _); eexists; (split; [reflexivity |]).
  - cbn [Backend.msg_sources]. rewrite length_map.
    unfold Backend.grounding. rewrite search_length. apply Nat.le_min_l.
  - simpl. lia.
Qed.

(** C7: a query that leaves [top_k] out is performed with [top_k] 3.
    [api.js] sends [top_k: 3] in the body of its POST /query;
    [services/api.js] sends a body without [top_k], and the backend
    resolves the missing key to its default 3.  Served, either request
    runs the orchestrator with [top_k] 3, on the question it carries, so
    at most 3 chunks are retrieved as grounding context and at most 3
    sources come back. *)
Theorem default_top_k_is_three (c : Backend.Collaborators) (question : string)
    (sessionId : JsVal) (s : Backend.System) (w : Net Backend.System) :
  let legacy := Api.query_request question JUndefined in
  let services := ServicesApi.askQuestion_request question sessionId in
  let sid := if truthy sessionId then sessionId else JUndefined in
  legacy = {| method := POST; path := "/query";
              body := Json (JObj [("question", JStr question); ("top_k", JNum 3)]) |} /\
  (exists payload, body services = Json payload /\ has_key "top_k" payload = false) /\
  Backend.serve_all c legacy s = Backend.ask_k c 3 question JUndefined s /\
  Backend.serve_all c services s = Backend.ask_k c 3 question sid s /\
  ServicesApi.askQuestion (Backend.serve_all c) question sessionId w =
    (snd (Backend.ask_k c 3 question sid (backend w)),
     {| backend := fst (Backend.ask_k c 3 question sid (backend w));
        sent := (sent w ++ [services])%list |}) /\
  (length (Backend.grounding c 3 question s) <= 3)%nat /\
  (forall r d, r = legacy \/ r = services ->
     snd (Backend.serve_all c r s) = Resolved d ->
     exists srcs, get_prop_opt d "sources" = JArr srcs /\ (length srcs <= 3)%nat).
Proof.
  cbv zeta.
  assert (Hserved : forall s',
    Backend.serve_all c (ServicesApi.askQuestion_request question sessionId) s'
    = Backend.ask_k c 3 question
        (if truthy sessionId then sessionId else JUndefined) s').
  { intros s'. unfold Backend.serve_all, ServicesApi.askQuestion_request.
    cbn [method body path]. rewrite askQuestion_payload_cases.
    destruct (truthy sessionId); reflexivity. }
  split; [reflexivity |].
  split.
  { eexists. split; [reflexivity |].
    apply (askQuestion_payload_no_top_k question sessionId). }
  split; [reflexivity |].
  split; [apply Hserved |].
  split.
  { unfold ServicesApi.askQuestion. rewrite send_unfold, Hserved. reflexivity. }
  split.
  { unfold Backend.grounding. rewrite search_length. apply Nat.le_min_l. }
  intros r d [-> | ->] Hd.
  - apply (ask_k_sources c 3 question JUndefined s d). exact Hd.
  - rewrite Hserved in Hd. exact (ask_k_sources c 3 question _ s d Hd).
Qed.

Lemma default_top_k_is_three_witness :
  snd (Backend.serve_all demo_collaborators
         (ServicesApi.askQuestion_request "What is on page one?" JNull) demo_system)
  = Resolved
      (JObj [("answer", JStr "See the cited pages.");
             ("session_id", JNum 1);
             ("sources",
              JArr [JObj [("page_number", JNum 1); ("relevance_score", JNum 1);
                          ("content", JStr "a")];
                    JObj [("page_number", JNum 1); ("relevance_score", JReal (1 # 2));
                          ("content", JStr "b")];
                    JObj [("page_number", JNum 2); ("relevance_score", JReal (1 # 3));
                          ("content", JStr "c")]])]).
Proof.
  destruct (default_top_k_is_three demo_collaborators "What is on page one?"
              JNull demo_system (fresh_net demo_system))
    as (_ & _ & _ & Hserved & _).
  rewrite Hserved. reflexivity.
Defined.

(** * Further properties of the client *)

(** ** [trim] *)

Lemma trimStart_head (s : string) (c : ascii) (r : string) :
  trimStart s = String c r -> is_space c = false.
Proof.
  induction s as [| a s IH]; simpl; [discriminate |].
  destruct (is_space a) eqn:Ha; [exact IH |].
  intros [= <- _]. exact Ha.
Qed.

Lemma trimEnd_idempotent (s : string) : trimEnd (trimEnd s) = trimEnd s.
Proof.
  induction s as [| a s IH]; simpl; [reflexivity |].
  destruct (trimEnd s) as [| b r] eqn:Hs.
  - destruct (is_space a) eqn:Ha; simpl; [reflexivity | now rewrite Ha].
  - change (trimEnd (String a (String b r)))
      with (match trimEnd (String b r) with
            | EmptyString =>
                if is_space a then EmptyString else String a EmptyString
            | String x y => String a (String x y)
            end).
    now rewrite IH.
Qed.

(** [trimEnd] keeps the first character of whatever it leaves. *)
Lemma trimEnd_head (s : string) (c : ascii) (r : string) :
  trimEnd s = String c r -> exists r', s = String c r'.
Proof.
  destruct s as [| a s]; simpl; [discriminate |].
  destruct (trimEnd s); [destruct (is_space a) |];
    intros [= <- _] || discriminate; eauto.
Qed.

Lemma trimEnd_last (s p : string) (c : ascii) :
  trimEnd s = p ++ String c "" -> is_space c = false.
Proof.
  revert p. induction s as [| a s IH]; intros p; simpl.
  - destruct p; discriminate.
  - destruct (trimEnd s) as [| b r] eqn:Hs.
    + destruct (is_space a) eqn:Ha.
      * destruct p; discriminate.
      * destruct p as [| x p]; simpl.
        -- intros [= <-]. exact Ha.
        -- destruct p; discriminate.
    + destruct p as [| x p]; simpl.
      * discriminate.
      * intros [= _ Hr]. now apply (IH p).
Qed.

Lemma trim_head (s : string) (c : ascii) (r : string) :
  trim s = String c r -> is_space c = false.
Proof.
  unfold trim. intros H.
  destruct (trimEnd_head _ _ _ H) as (r' & Hr').
  exact (trimStart_head s c r' Hr').
Qed.

Lemma trim_idempotent (s : string) : trim (trim s) = trim s.
Proof.
  destruct (trim s) as [| c r] eqn:Ht; [reflexivity |].
  pose proof (trim_head s c r Ht) as Hc.
  unfold trim at 1. simpl trimStart. rewrite Hc.
  rewrite <- Ht. unfold trim. apply trimEnd_idempotent.
Qed.

(** ** ChatPanel: what a submit sends *)

Section ChatMore.
Import ChatPanel.
Local Open Scope list_scope.
Context {Server : Type} (serve : Request -> Server -> Server * Outcome).

(** X1: a submit sends nothing when the button is disabled, and otherwise
    exactly one POST /query/ whose question is the trimmed input: not
    empty, unchanged by another [trim], with no white space at either
    end.  The session id sent is the stored one. *)
Theorem submit_sends_one_trimmed_question (st : State) (w : Net Server) :
  let q := trim (input st) in
  if submit_disabled st
  then sent (snd (handleSubmit serve st w)) = sent w
  else
    sent (snd (handleSubmit serve st w))
    = sent w ++ [ServicesApi.askQuestion_request q (sessionId st)] /\
    q <> ""%string /\
    trim q = q /\
    (forall c r, q = String c r -> is_space c = false) /\
    (forall p c, q = (p ++ String c "")%string -> is_space c = false).
Proof.
  cbv zeta. unfold submit_disabled.
  destruct (negb (truthy (JStr (trim (input st)))) || loading st) eqn:Hg.
  - unfold handleSubmit, handleSubmit_begin. now rewrite Hg.
  - apply orb_false_iff in Hg. destruct Hg as (Hq & Hl).
    apply negb_false_iff, truthy_JStr in Hq.
    split.
    { rewrite (handleSubmit_accepted serve st w Hq Hl).
      unfold ServicesApi.askQuestion. rewrite send_unfold. reflexivity. }
    split; [exact Hq |].
    split; [apply trim_idempotent |].
    split.
    + intros c r H. exact (trim_head _ _ _ H).
    + intros p c H. exact (trimEnd_last _ _ _ H).
Qed.

(** A key that is not there reads as [undefined]. *)
Lemma missing_key_is_undefined (k : string) (d : JsVal) :
  has_key k d = false -> get_prop_opt d k = JUndefined.
Proof.
  destruct d as [| | b | n | s | l | fields | q]; try reflexivity.
  unfold get_prop_opt. simpl.
  induction fields as [| [k' v] fields IH]; simpl; [reflexivity |].
  destruct (k' =? k)%string; simpl; [discriminate | exact IH].
Qed.

(** X2: a 2xx response whose body is [null] or [undefined] is handled
    exactly like a failed request.  Any other body is stored as an
    answer that is not flagged as an error, even when it has no [answer]
    key: the content of the stored message is then [undefined]. *)
Theorem empty_body_is_a_failure (st : State) (d : JsVal) (why : Failure) :
  if nullish d
  then handleSubmit_resume (Resolved d) st = handleSubmit_resume (Rejected why) st
  else
    exists m,
      messages (handleSubmit_resume (Resolved d) st) = messages st ++ [m] /\
      role m = assistant /\
      error m = None /\
      content m = get_prop_opt d "answer" /\
      (has_key "answer" d = false -> content m = JUndefined).
Proof.
  destruct (nullish d) eqn:Hd.
  - destruct d; try discriminate; reflexivity.
  - exists (answer_message d). unfold handleSubmit_resume.
    rewrite (get_prop_not_nullish d "session_id" Hd). simpl.
    repeat split. apply missing_key_is_undefined.
Qed.

(** X3: New Chat does not wait for a query in flight.  It leaves
    [loading] and the typed input as they are, and when the query settles
    its answer, or the error message, becomes the only message of the new
    conversation, an assistant message with no question before it. *)
Theorem new_chat_keeps_pending_answer (st : State) (o : Outcome) :
  loading (handleNewChat st) = loading st /\
  input (handleNewChat st) = input st /\
  exists m, role m = assistant /\
    messages (handleSubmit_resume o (handleNewChat st)) = [m].
Proof.
  split; [reflexivity |]. split; [reflexivity |].
  destruct (handleSubmit_resume_appends o (handleNewChat st)) as (m & Hr & Hm).
  exists m. split; [exact Hr |]. exact Hm.
Qed.

End ChatMore.

(** ** The chat panel under any sequence of events *)

Section ChatEvents.
Import ChatPanel ChatRun.
Local Open Scope list_scope.

Lemma step_in_step (r : Running) (e : Event) : in_step r -> in_step (step r e).
Proof.
  intros Hr. destruct e as [s | | | o]; simpl.
  - destruct (loading (view r)) eqn:Hl; [exact Hr |].
    destruct Hr as [(Hl' & _) | (_ & Hf)]; [congruence |].
    right. split; [exact Hl | exact Hf].
  - unfold handleSubmit_begin.
    destruct (negb (truthy (JStr (trim (input (view r))))) || loading (view r))
      eqn:Hg.
    + exact Hr.
    + apply orb_false_iff in Hg. destruct Hg as (_ & Hl).
      destruct Hr as [(Hl' & _) | (_ & Hf)]; [congruence |].
      left. simpl. split; [reflexivity |]. rewrite Hf. simpl. eauto.
  - destruct Hr as [(Hl & Hf) | (Hl & Hf)]; [left | right]; simpl; auto.
  - destruct Hr as [(Hl & call & Hf) | (Hl & Hf)]; rewrite Hf.
    + right. simpl. auto.
    + right. auto.
Qed.

Lemma run_in_step (events : list Event) (r : Running) :
  in_step r -> in_step (run events r).
Proof.
  revert r. induction events as [| e events IH]; intros r Hr; simpl.
  - exact Hr.
  - apply IH. now apply step_in_step.
Qed.

(** X4: whatever the user does and whenever responses arrive, the panel
    waits for at most one query at a time, and [loading] is set exactly
    while it waits. *)
Theorem one_query_in_flight (events : list Event) :
  let r := run events start in
  (length (in_flight r) <= 1)%nat /\
  (loading (view r) = true <-> in_flight r <> []).
Proof.
  cbv zeta.
  assert (H : in_step (run events start)).
  { apply run_in_step. right. split; reflexivity. }
  destruct H as [(Hl & call & Hf) | (Hl & Hf)]; rewrite Hl, Hf; simpl.
  - split; [lia |]. split; [discriminate | reflexivity].
  - split; [lia |]. split; [discriminate | congruence].
Qed.

Lemma exchanges_app_bounded (n : nat) (l l2 : list Message) :
  (length l <= n)%nat ->
  exchanges l = true -> exchanges (l ++ l2) = exchanges l2.
Proof.
  revert l. induction n as [| n IH]; intros l Hn Hl.
  - destruct l; [reflexivity | simpl in Hn; lia].
  - destruct l as [| u [| a rest]]; [reflexivity | discriminate |].
    simpl in *. destruct (role u); [| discriminate].
    destruct (role a); [discriminate |].
    apply IH; [lia | exact Hl].
Qed.

Lemma exchanges_app (l l2 : list Message) :
  exchanges l = true -> exchanges (l ++ l2) = exchanges l2.
Proof. apply (exchanges_app_bounded (length l)). lia. Qed.

Lemma step_paired (r : Running) (e : Event) :
  is_new_chat e = false -> in_step r -> paired r -> paired (step r e).
Proof.
  intros He Hr Hp. destruct e as [s | | | o]; try discriminate He; cbn [step].
  - destruct (loading (view r)) eqn:Hl; [exact Hp |].
    unfold paired in *. simpl. now rewrite Hl in *.
  - unfold handleSubmit_begin.
    destruct (negb (truthy (JStr (trim (input (view r))))) || loading (view r))
      eqn:Hg; [exact Hp |].
    apply orb_false_iff in Hg. destruct Hg as (_ & Hl).
    unfold paired in *. rewrite Hl in Hp. simpl. eauto.
  - destruct Hr as [(Hl & call & Hf) | (Hl & Hf)]; rewrite Hf; [| exact Hp].
    unfold paired in *. rewrite Hl in Hp. destruct Hp as (l & q & Hm & Hx).
    destruct (handleSubmit_resume_appends o (view r)) as (m & Hrole & Hm').
    cbn [view]. rewrite handleSubmit_resume_loading, Hm', Hm, <- app_assoc.
    rewrite (exchanges_app l _ Hx). simpl. now rewrite Hrole.
Qed.

Lemma run_paired (events : list Event) (r : Running) :
  forallb (fun e => negb (is_new_chat e)) events = true ->
  in_step r -> paired r -> in_step (run events r) /\ paired (run events r).
Proof.
  revert r. induction events as [| e events IH]; intros r He Hr Hp; simpl.
  - split; assumption.
  - simpl in He. apply andb_true_iff in He. destruct He as (He & Hes).
    apply negb_true_iff in He.
    apply IH; [exact Hes | now apply step_in_step | now apply step_paired].
Qed.

(** X5: as long as New Chat is not clicked, the log is a sequence of
    exchanges, each a user message followed by an assistant message;
    while a query is pending it ends with the one question still open. *)
Theorem log_is_exchanges (events : list Event) :
  forallb (fun e => negb (is_new_chat e)) events = true ->
  let r := run events start in
  if loading (view r)
  then exists l q, messages (view r) = l ++ [user_message q] /\ exchanges l = true
  else exchanges (messages (view r)) = true.
Proof.
  intros He. cbv zeta.
  destruct (run_paired events start He) as (_ & Hp).
  - right. split; reflexivity.
  - reflexivity.
  - exact Hp.
Qed.

End ChatEvents.

Lemma log_is_exchanges_witness :
  exists l q,
    ChatPanel.messages
      (ChatRun.view
         (ChatRun.run [ChatRun.Typed "hi"; ChatRun.Submitted;
                       ChatRun.Settled (Rejected Timeout);
                       ChatRun.Typed "again"; ChatRun.Submitted]
                      ChatRun.start))
    = (l ++ [ChatPanel.user_message q])%list /\
    ChatRun.exchanges l = true.
Proof.
  exact (log_is_exchanges
           [ChatRun.Typed "hi"; ChatRun.Submitted;
            ChatRun.Settled (Rejected Timeout);
            ChatRun.Typed "again"; ChatRun.Submitted] eq_refl).
Defined.

(** ** DocumentPanel: what the error banner ends up showing *)

Section DocumentsMore.
Import DocumentPanel.
Local Open Scope list_scope.
Context {Server : Type} (serve : Request -> Server -> Server * Outcome).

(** Files that are all [.pdf] and all accepted leave the state alone. *)
Lemma upload_loop_all_accepted (files : list File) (st : State) (w : Net Server) :
  (forall g s, In g files ->
     isPdf g = true /\
     exists d, snd (serve (ServicesApi.uploadDocument_request g) s) = Resolved d) ->
  fst (upload_loop serve files st w) = st.
Proof.
  revert st w. induction files as [| f files IH]; intros st w Hok.
  - reflexivity.
  - rewrite upload_loop_cons.
    destruct (Hok f (backend w) (or_introl eq_refl)) as (Hpdf & d & Hd).
    rewrite Hpdf. unfold ServicesApi.uploadDocument at 1.
    rewrite send_unfold. cbn [fst]. rewrite Hd.
    apply IH. intros g s Hg. apply Hok. now right.
Qed.

(** X6: an upload action starts by clearing the banner.  When every file
    is a [.pdf] that the backend accepts, the banner stays clear if the
    refetch succeeds, whatever it showed before, and the list shown is
    the one the refetch returned. *)
Theorem clean_upload_clears_error (files : list File) (st : State) (w : Net Server)
    (docs : JsVal) :
  (forall g s, In g files ->
     isPdf g = true /\
     exists d, snd (serve (ServicesApi.uploadDocument_request g) s) = Resolved d) ->
  snd (serve ServicesApi.listDocuments_request
         (backend (snd (upload_loop serve files st w)))) = Resolved docs ->
  fst (handleUpload serve files st w) =
    {| documents := docs; uploading := false; error := None;
       dragOver := dragOver st |}.
Proof.
  intros Hok Hlist.
  rewrite handleUpload_unfold, fetchDocuments_unfold. cbn [fst].
  rewrite (upload_loop_net serve files _ st w), Hlist.
  rewrite (upload_loop_all_accepted files _ w Hok). reflexivity.
Qed.

(** X7: the banner holds one message.  After an upload action it shows
    the failure of the refetch when the refetch fails; otherwise it shows
    the last file that did not go through, and nothing of the failures
    before it. *)
Theorem upload_error_is_last_failure (pre post : list File) (f : File)
    (st : State) (w : Net Server) :
  let st0 := setError None (setUploading true st) in
  let before := upload_loop serve pre st0 w in
  let after := upload_loop serve (pre ++ f :: post) st0 w in
  (isPdf f = false \/
   exists why, fst (ServicesApi.uploadDocument serve f (snd before)) = Rejected why) ->
  (forall g s, In g post ->
     isPdf g = true /\
     exists d, snd (serve (ServicesApi.uploadDocument_request g) s) = Resolved d) ->
  error (fst (handleUpload serve (pre ++ f :: post) st w)) =
    match snd (serve ServicesApi.listDocuments_request (backend (snd after))) with
    | Resolved _ => Some (upload_failure_message f)
    | Rejected _ => Some "Failed to load documents"%string
    end.
Proof.
  cbv zeta. intros Hfail Hpost.
  rewrite handleUpload_unfold, fetchDocuments_unfold. cbn [fst].
  destruct (snd (serve ServicesApi.listDocuments_request _)); [| reflexivity].
  simpl. rewrite upload_loop_app, upload_loop_cons.
  unfold upload_failure_message.
  destruct (isPdf f) eqn:Hpdf.
  - destruct Hfail as [Hf | (why & Hwhy)]; [discriminate |].
    rewrite Hwhy, (upload_loop_all_accepted post _ _ Hpost). reflexivity.
  - rewrite (upload_loop_all_accepted post _ _ Hpost). reflexivity.
Qed.

Lemma handleDelete_confirmed (documentId : string) (st : State) (w : Net Server) :
  handleDelete serve true documentId st w =
    match snd (serve (ServicesApi.deleteDocument_request documentId) (backend w)) with
    | Resolved _ =>
        fetchDocuments serve st
          (snd (ServicesApi.deleteDocument serve documentId w))
    | Rejected _ =>
        (setError (Some "Failed to delete document"%string) st,
         snd (ServicesApi.deleteDocument serve documentId w))
    end.
Proof.
  unfold handleDelete. simpl. rewrite bind_unfold.
  unfold ServicesApi.deleteDocument at 1. rewrite send_unfold. cbn [fst].
  destruct (snd (serve (ServicesApi.deleteDocument_request documentId) (backend w)));
    reflexivity.
Qed.

(** X8: a delete the user does not confirm sends nothing and changes
    nothing.  A confirmed delete sends the DELETE request; when that
    fails no refetch follows and the list shown stays as it was, and
    when it succeeds exactly one refetch follows. *)
Theorem handleDelete_requests (confirmed : bool) (documentId : string)
    (st : State) (w : Net Server) :
  let run := handleDelete serve confirmed documentId st w in
  let del := ServicesApi.deleteDocument_request documentId in
  if confirmed
  then match snd (serve del (backend w)) with
       | Resolved _ =>
           sent (snd run) = sent w ++ [del; ServicesApi.listDocuments_request]
       | Rejected _ =>
           sent (snd run) = sent w ++ [del] /\
           documents (fst run) = documents st /\
           error (fst run) = Some "Failed to delete document"%string
       end
  else run = (st, w).
Proof.
  cbv zeta. destruct confirmed; [| reflexivity].
  rewrite handleDelete_confirmed.
  unfold ServicesApi.deleteDocument. rewrite send_unfold.
  destruct (snd (serve (ServicesApi.deleteDocument_request documentId) (backend w))).
  - rewrite fetchDocuments_unfold. simpl. now rewrite <- app_assoc.
  - simpl. auto.
Qed.

(** X9: only an upload action clears the banner.  A refetch or a delete,
    successful or not, leaves a message that is showing on the screen. *)
Theorem stale_error_survives (confirmed : bool) (documentId : string)
    (st : State) (w : Net Server) :
  error st <> None ->
  error (fst (fetchDocuments serve st w)) <> None /\
  error (fst (handleDelete serve confirmed documentId st w)) <> None /\
  (forall docs,
     snd (serve ServicesApi.listDocuments_request (backend w)) = Resolved docs ->
     error (fst (fetchDocuments serve st w)) = error st).
Proof.
  intros He.
  assert (Hfetch : forall w', error (fst (fetchDocuments serve st w')) <> None).
  { intros w'. rewrite fetchDocuments_unfold. cbn [fst].
    destruct (snd (serve ServicesApi.listDocuments_request (backend w')));
      simpl; [exact He | discriminate]. }
  split; [apply Hfetch |].
  split.
  - destruct confirmed; [| exact He].
    rewrite handleDelete_confirmed.
    destruct (snd (serve (ServicesApi.deleteDocument_request documentId) (backend w)));
      [apply Hfetch | simpl; discriminate].
  - intros docs Hdocs. rewrite fetchDocuments_unfold. cbn [fst].
    now rewrite Hdocs.
Qed.

End DocumentsMore.

Lemma clean_upload_clears_error_witness :
  DocumentPanel.error
    (fst (DocumentPanel.handleUpload (fixed_server (JArr []))
            [{| name := "a.pdf"; size := 10 |}]
            (DocumentPanel.setError (Some "Failed to load documents")
                                    DocumentPanel.initial)
            (fresh_net tt)))
  = None.
Proof.
  rewrite (clean_upload_clears_error (fixed_server (JArr []))
             [{| name := "a.pdf"; size := 10 |}]
             (DocumentPanel.setError (Some "Failed to load documents")
                                     DocumentPanel.initial)
             (fresh_net tt) (JArr [])).
  - reflexivity.
  - intros g s [<- | []]. split; [reflexivity | eexists; reflexivity].
  - reflexivity.
Defined.

Lemma upload_error_is_last_failure_witness :
  DocumentPanel.error
    (fst (DocumentPanel.handleUpload (fixed_server (JArr []))
            [{| name := "first.txt"; size := 1 |};
             {| name := "notes.txt"; size := 2 |};
             {| name := "a.pdf"; size := 10 |}]
            DocumentPanel.initial (fresh_net tt)))
  = Some "Only PDF files are supported".
Proof.
  apply (upload_error_is_last_failure (fixed_server (JArr []))
           [{| name := "first.txt"; size := 1 |}]
           [{| name := "a.pdf"; size := 10 |}]
           {| name := "notes.txt"; size := 2 |}
           DocumentPanel.initial (fresh_net tt)).
  - left. reflexivity.
  - intros g s [<- | []]. split; [reflexivity | eexists; reflexivity].
Defined.

Lemma stale_error_survives_witness :
  DocumentPanel.error
    (fst (DocumentPanel.fetchDocuments (fixed_server (JArr []))
            (DocumentPanel.setError (Some "Failed to upload a.pdf")
                                    DocumentPanel.initial)
            (fresh_net tt)))
  = Some "Failed to upload a.pdf".
Proof.
  destruct (stale_error_survives (fixed_server (JArr [])) false "7"
              (DocumentPanel.setError (Some "Failed to upload a.pdf")
                                      DocumentPanel.initial)
              (fresh_net tt)) as (_ & _ & H).
  - discriminate.
  - exact (H (JArr []) eq_refl).
Defined.

(** ** The extension test *)

Lemma string_length_append (a b : string) :
  String.length (a ++ b) = (String.length a + String.length b)%nat.
Proof.
  induction a as [| c a IH]; simpl; [reflexivity | now rewrite IH].
Qed.

Lemma substring_all (s : string) : substring 0 (String.length s) s = s.
Proof.
  induction s as [| c s IH]; simpl; [reflexivity | now rewrite IH].
Qed.

Lemma substring_suffix (pre suf : string) :
  substring (String.length pre) (String.length suf) (pre ++ suf) = suf.
Proof.
  induction pre as [| c pre IH]; simpl; [apply substring_all | exact IH].
Qed.

Lemma substring_split (s : string) (k : nat) :
  (k <= String.length s)%nat ->
  s = substring 0 k s ++ substring k (String.length s - k) s.
Proof.
  revert k. induction s as [| c s IH]; intros k Hk.
  - destruct k; [reflexivity | simpl in Hk; lia].
  - destruct k as [| k].
    + simpl. now rewrite substring_all.
    + simpl. f_equal. apply IH. simpl in Hk. lia.
Qed.

Lemma endsWith_iff (s suffix : string) :
  endsWith s suffix = true <-> exists pre, s = pre ++ suffix.
Proof.
  unfold endsWith. split.
  - intros H. apply andb_true_iff in H. destruct H as (Hlen & Heq).
    apply Nat.leb_le in Hlen. apply String.eqb_eq in Heq.
    exists (substring 0 (String.length s - String.length suffix) s).
    pose proof (substring_split s (String.length s - String.length suffix)
                  ltac:(lia)) as Hs.
    replace (String.length s - (String.length s - String.length suffix))%nat
      with (String.length suffix) in Hs by lia.
    now rewrite Heq in Hs.
  - intros (pre & ->). rewrite string_length_append.
    apply andb_true_iff. split.
    + apply Nat.leb_le. lia.
    + apply String.eqb_eq.
      replace (String.length pre + String.length suffix - String.length suffix)%nat
        with (String.length pre) by lia.
      apply substring_suffix.
Qed.

Lemma toLowerCase_append (a b : string) :
  toLowerCase (a ++ b) = toLowerCase a ++ toLowerCase b.
Proof.
  induction a as [| c a IH]; simpl; [reflexivity | now rewrite IH].
Qed.

Lemma toLowerCase_split (n p q : string) :
  toLowerCase n = p ++ q ->
  exists n1 n2, n = n1 ++ n2 /\ toLowerCase n1 = p /\ toLowerCase n2 = q.
Proof.
  revert n. induction p as [| c p IH]; intros n H.
  - exists "", n. auto.
  - destruct n as [| a n]; [discriminate |].
    simpl in H. injection H as Hc Hrest.
    destruct (IH n Hrest) as (n1 & n2 & -> & H1 & H2).
    exists (String a n1), n2. simpl. now rewrite Hc, H1.
Qed.

Ltac by_all_characters c :=
  destruct c as [[] [] [] [] [] [] [] []]; vm_compute;
  intros H; try discriminate H; auto.

Lemma lower_char_dot (c : ascii) : lower_char c = "."%char -> c = "."%char.
Proof. by_all_characters c. Qed.

Lemma lower_char_p (c : ascii) :
  lower_char c = "p"%char -> c = "p"%char \/ c = "P"%char.
Proof. by_all_characters c. Qed.

Lemma lower_char_d (c : ascii) :
  lower_char c = "d"%char -> c = "d"%char \/ c = "D"%char.
Proof. by_all_characters c. Qed.

Lemma lower_char_f (c : ascii) :
  lower_char c = "f"%char -> c = "f"%char \/ c = "F"%char.
Proof. by_all_characters c. Qed.

(** X10: a file passes the extension test exactly when its name ends in
    a dot followed by p, d and f, each in either case.  Nothing before
    those four characters matters, so a file named just [.pdf] passes,
    and no name shorter than four characters does. *)
Theorem isPdf_iff_last_four (f : File) :
  DocumentPanel.isPdf f = true <->
  exists stem a b c,
    name f = stem ++ String "." (String a (String b (String c ""))) /\
    (a = "p"%char \/ a = "P"%char) /\
    (b = "d"%char \/ b = "D"%char) /\
    (c = "f"%char \/ c = "F"%char).
Proof.
  unfold DocumentPanel.isPdf. rewrite endsWith_iff. split.
  - intros (pre & Hpre).
    destruct (toLowerCase_split _ _ _ Hpre) as (stem & ext & Hname & _ & Hext).
    destruct ext as [| x [| a [| b [| c [| y ext]]]]]; try discriminate Hext.
    simpl in Hext. injection Hext as Hx Ha Hb Hc.
    apply lower_char_dot in Hx. subst x.
    exists stem, a, b, c. split; [exact Hname |].
    split; [now apply lower_char_p |].
    split; [now apply lower_char_d | now apply lower_char_f].
  - intros (stem & a & b & c & Hname & Ha & Hb & Hc).
    exists (toLowerCase stem). rewrite Hname, toLowerCase_append. f_equal.
    destruct Ha as [-> | ->], Hb as [-> | ->], Hc as [-> | ->]; reflexivity.
Qed.

(** ** [formatFileSize] *)

Lemma tenths_bounds (num den : Z) :
  0 < den ->
  2 * den * tenths num den <= 20 * num + den < 2 * den * tenths num den + 2 * den.
Proof.
  intros Hden. unfold tenths.
  pose proof (Z.div_mod (20 * num + den) (2 * den)) as Hdm.
  pose proof (Z.mod_pos_bound (20 * num + den) (2 * den)) as Hb.
  lia.
Qed.

(** X11: for an integer size from 1024 bytes up to [MAX_SAFE_INTEGER],
    the size is shown in KB below 1024 * 1024 bytes and in MB from there
    on, as a number with one decimal that is within a twentieth of the
    exact quotient.  In KB the number shown runs from 1.0 up to and
    including 1024.0. *)
Theorem formatFileSize_rounds (bytes : Z) :
  1024 <= bytes <= MAX_SAFE_INTEGER ->
  exists n,
    2 * Z.abs ((if bytes <? 1024 * 1024 then 1024 else 1024 * 1024) * n - 10 * bytes)
      <= (if bytes <? 1024 * 1024 then 1024 else 1024 * 1024) /\
    10 <= n /\
    DocumentPanel.formatFileSize bytes =
      fixed1 n ++ (if bytes <? 1024 * 1024 then " KB" else " MB") /\
    (bytes < 1024 * 1024 -> n <= 10240).
Proof.
  intros (Hb & _). unfold DocumentPanel.formatFileSize, toFixed1.
  assert (Hlt : (bytes <? 1024) = false) by (apply Z.ltb_ge; lia).
  rewrite Hlt.
  destruct (bytes <? 1024 * 1024) eqn:Hk.
  - apply Z.ltb_lt in Hk.
    pose proof (tenths_bounds bytes 1024 ltac:(lia)) as Ht.
    exists (tenths bytes 1024). repeat split; try lia.
  - apply Z.ltb_ge in Hk.
    pose proof (tenths_bounds bytes (1024 * 1024) ltac:(lia)) as Ht.
    exists (tenths bytes (1024 * 1024)). repeat split; try lia.
Qed.

(** X12: the last 51 byte counts below 1024 * 1024 are all shown as
    1024.0 KB, not as 1.0 MB: the unit is chosen before rounding. *)
Theorem formatFileSize_just_below_one_MB (bytes : Z) :
  1048525 <= bytes < 1024 * 1024 ->
  DocumentPanel.formatFileSize bytes = "1024.0 KB".
Proof.
  intros Hb. unfold DocumentPanel.formatFileSize, toFixed1.
  assert (Hlt : (bytes <? 1024) = false) by (apply Z.ltb_ge; lia).
  assert (Hk : (bytes <? 1024 * 1024) = true) by (apply Z.ltb_lt; lia).
  rewrite Hlt, Hk.
  pose proof (tenths_bounds bytes 1024 ltac:(lia)) as Ht.
  replace (tenths bytes 1024) with 10240 by lia.
  reflexivity.
Qed.

Lemma formatFileSize_rounds_witness :
  DocumentPanel.formatFileSize 1536 = "1.5 KB" /\
  DocumentPanel.formatFileSize (5 * 1024 * 1024 + 60000) = "5.1 MB".
Proof.
  destruct (formatFileSize_rounds 1536 ltac:(unfold MAX_SAFE_INTEGER; lia))
    as (n & Hn & _ & -> & _).
  destruct (formatFileSize_rounds (5 * 1024 * 1024 + 60000)
              ltac:(unfold MAX_SAFE_INTEGER; lia))
    as (m & Hm & _ & -> & _).
  change (1536 <? 1024 * 1024) with true in Hn.
  change (5 * 1024 * 1024 + 60000 <? 1024 * 1024) with false in Hm.
  cbv iota in Hn, Hm.
  assert (n = 15) as -> by lia.
  assert (m = 51) as -> by lia.
  split; reflexivity.
Defined.

Lemma formatFileSize_just_below_one_MB_witness :
  DocumentPanel.formatFileSize 1048575 = "1024.0 KB".
Proof.
  apply formatFileSize_just_below_one_MB. lia.
Defined.

(** ** services/api.js: paths built from an identifier *)

Lemma append_slash_injective (a b : string) :
  (a ++ "/" = b ++ "/")%string -> a = b.
Proof.
  revert b. induction a as [| x a IH]; intros [| y b]; simpl; intros H.
  - reflexivity.
  - injection H as _ H. destruct b; discriminate H.
  - injection H as _ H. destruct a; discriminate H.
  - injection H as -> H. f_equal. now apply IH.
Qed.

Lemma string_append_assoc (a b c : string) :
  ((a ++ b) ++ c = a ++ (b ++ c))%string.
Proof.
  induction a as [| x a IH]; simpl; [reflexivity | now rewrite IH].
Qed.

Lemma plain_char_is_read (c : ascii) :
  is_plain_char c = true ->
  ((c =? "?")%char || (c =? "#")%char = false) /\ (c =? "/")%char = false /\
  (c =? ".")%char = false.
Proof.
  destruct c as [[] [] [] [] [] [] [] []]; vm_compute; intros H;
    try discriminate H; auto.
Qed.

(** A run of plain characters is read into the current segment. *)
Lemma resolve_from_plain (a s done cur : string) :
  plain_id a = true ->
  resolve_from (a ++ s) done cur = resolve_from s done (cur ++ a).
Proof.
  revert cur. induction a as [| c a IH]; intros cur Ha; simpl.
  - f_equal. clear. induction cur as [| x cur IH]; simpl; congruence.
  - simpl in Ha. apply andb_true_iff in Ha. destruct Ha as (Hc & Ha).
    destruct (plain_char_is_read c Hc) as (H1 & H2 & _).
    rewrite H1, H2, Hc. simpl. rewrite (IH _ Ha).
    now rewrite string_append_assoc.
Qed.

Lemma plain_is_no_dot_segment (a : string) :
  plain_id a = true -> (a =? "..")%string = false /\ (a =? ".")%string = false.
Proof.
  destruct a as [| c a]; [split; reflexivity |].
  intros Ha. cbn [plain_id] in Ha.
  apply andb_true_iff in Ha. destruct Ha as (Hc & _).
  destruct (plain_char_is_read c Hc) as (_ & _ & Hdot).
  split; apply String.eqb_neq; intros [= -> _]; discriminate Hdot.
Qed.

(** Under a collection, a plain identifier followed by a slash resolves
    to itself. *)
Lemma resolve_item_path (collection a : string) :
  plain_id collection = true -> collection <> ""%string -> plain_id a = true ->
  resolve_path ("/" ++ collection ++ "/" ++ a ++ "/")
  = Some ("/" ++ collection ++ "/" ++ a ++ "/")%string.
Proof.
  intros Hcol Hne Ha. simpl.
  rewrite (resolve_from_plain collection _ "" "" Hcol). simpl.
  destruct (plain_is_no_dot_segment collection Hcol) as (Hc2 & Hc1).
  rewrite Hc2, Hc1.
  rewrite (resolve_from_plain a "/" _ "" Ha). simpl.
  destruct (plain_is_no_dot_segment a Ha) as (Ha2 & Ha1).
  rewrite Ha2, Ha1. unfold finish_path. simpl.
  f_equal. now rewrite !string_append_assoc.
Qed.

(** What follows a [#] in an identifier is cut off. *)
Lemma resolve_item_cut (collection a x : string) :
  plain_id collection = true -> plain_id a = true ->
  resolve_path ("/" ++ collection ++ "/" ++ (a ++ "#" ++ x) ++ "/")
  = Some ("/" ++ collection ++ "/" ++ a)%string.
Proof.
  intros Hcol Ha. simpl.
  rewrite (resolve_from_plain collection _ "" "" Hcol). simpl.
  destruct (plain_is_no_dot_segment collection Hcol) as (Hc2 & Hc1).
  rewrite Hc2, Hc1.
  rewrite string_append_assoc.
  rewrite (resolve_from_plain a _ _ "" Ha). simpl.
  unfold finish_path.
  destruct (plain_is_no_dot_segment a Ha) as (Ha2 & Ha1).
  rewrite Ha2, Ha1. reflexivity.
Qed.

(** X13: for identifiers made of letters, digits, hyphens and
    underscores, as numeric ids and UUIDs are, the path requested is the
    path written, so two different identifiers never request the same
    path, for documents and for sessions, and no such identifier, not
    even the empty one, requests the path of the collection.  Other
    identifiers can: a single dot requests the collection, and what
    follows a [#] is cut off. *)
Theorem identifier_paths_are_injective (a b : string) :
  plain_id a = true -> plain_id b = true ->
  ServicesApi.requested_path (ServicesApi.getDocument_request a)
  = Some (path (ServicesApi.getDocument_request a)) /\
  ServicesApi.requested_path (ServicesApi.getSession_request a)
  = Some (path (ServicesApi.getSession_request a)) /\
  (ServicesApi.requested_path (ServicesApi.deleteDocument_request a)
   = ServicesApi.requested_path (ServicesApi.deleteDocument_request b) -> a = b) /\
  (ServicesApi.requested_path (ServicesApi.getDocument_request a)
   = ServicesApi.requested_path (ServicesApi.getDocument_request b) -> a = b) /\
  (ServicesApi.requested_path (ServicesApi.getSession_request a)
   = ServicesApi.requested_path (ServicesApi.getSession_request b) -> a = b) /\
  (ServicesApi.requested_path (ServicesApi.deleteSession_request a)
   = ServicesApi.requested_path (ServicesApi.deleteSession_request b) -> a = b) /\
  ServicesApi.requested_path (ServicesApi.getDocument_request a)
  <> ServicesApi.requested_path ServicesApi.listDocuments_request /\
  ServicesApi.requested_path (ServicesApi.getSession_request a)
  <> ServicesApi.requested_path ServicesApi.listSessions_request /\
  ServicesApi.requested_path (ServicesApi.getDocument_request ".")
  = ServicesApi.requested_path ServicesApi.listDocuments_request /\
  ServicesApi.requested_path (ServicesApi.getDocument_request (a ++ "#1"))
  = ServicesApi.requested_path (ServicesApi.getDocument_request (a ++ "#2")).
Proof.
  intros Ha Hb.
  assert (Hdoc : forall x, plain_id x = true ->
            resolve_path ("/documents/" ++ x ++ "/") = Some ("/documents/" ++ x ++ "/")%string).
  { intros x Hx. apply (resolve_item_path "documents" x); [reflexivity | discriminate | exact Hx]. }
  assert (Hses : forall x, plain_id x = true ->
            resolve_path ("/sessions/" ++ x ++ "/") = Some ("/sessions/" ++ x ++ "/")%string).
  { intros x Hx. apply (resolve_item_path "sessions" x); [reflexivity | discriminate | exact Hx]. }
  unfold ServicesApi.requested_path. cbn [path ServicesApi.getDocument_request
    ServicesApi.deleteDocument_request ServicesApi.getSession_request
    ServicesApi.deleteSession_request].
  rewrite !(Hdoc a Ha), !(Hdoc b Hb), !(Hses a Ha), !(Hses b Hb).
  split; [reflexivity |]. split; [reflexivity |].
  split; [intros [= H]; now apply append_slash_injective |].
  split; [intros [= H]; now apply append_slash_injective |].
  split; [intros [= H]; now apply append_slash_injective |].
  split; [intros [= H]; now apply append_slash_injective |].
  split; [intros H; vm_compute in H; injection H as H; destruct a; discriminate H |].
  split; [intros H; vm_compute in H; injection H as H; destruct a; discriminate H |].
  split; [reflexivity |].
  exact (eq_trans (resolve_item_cut "documents" a "1" eq_refl Ha)
                  (eq_sym (resolve_item_cut "documents" a "2" eq_refl Ha))).
Qed.

(** ** api.js: what the fetch client returns and throws *)

Section Legacy.
Import Api.
Context (parse : string -> option JsVal).

(** X14: [uploadDocument], [getDocuments], [deleteDocument] and [query]
    return a value only for a response that is ok and whose body parses
    as JSON, and then they return what the body parses to. *)
Theorem checked_calls_return_ok_bodies (o : FetchOutcome) (v : JsVal) :
  let good := exists res t,
                o = Responded res /\ ok res = true /\
                body_text res = Some t /\ parse t = Some v in
  (uploadDocument parse o = Returned v <-> good) /\
  (getDocuments parse o = Returned v <-> good) /\
  (deleteDocument parse o = Returned v <-> good) /\
  (query parse o = Returned v <-> good).
Proof.
  cbv zeta.
  assert (Hjson : forall res,
    ok res = true ->
    (res_json parse res = Returned v <->
     exists t, body_text res = Some t /\ parse t = Some v)).
  { intros res _. unfold res_json. split.
    - destruct (body_text res) as [t |]; [| discriminate].
      destruct (parse t) as [v' |] eqn:Hp; [| discriminate].
      intros [= <-]. eauto.
    - intros (t & -> & ->). reflexivity. }
  assert (Hchecked : forall message,
    checked parse message o = Returned v <->
    exists res t, o = Responded res /\ ok res = true /\
                  body_text res = Some t /\ parse t = Some v).
  { intros message. unfold checked. split.
    - destruct o as [res |]; [| discriminate].
      destruct (ok res) eqn:Hok; simpl; [| discriminate].
      intros H. apply (Hjson res Hok) in H. destruct H as (t & Ht & Hp).
      exists res, t. auto.
    - intros (res & t & -> & Hok & Ht & Hp). rewrite Hok. simpl.
      apply (Hjson res Hok). eauto. }
  split; [| repeat split; apply Hchecked].
  unfold uploadDocument. split.
  - destruct o as [res |]; [| discriminate].
    destruct (ok res) eqn:Hok; simpl.
    + intros H. apply (Hjson res Hok) in H. destruct H as (t & Ht & Hp).
      exists res, t. auto.
    + destruct (res_text res); discriminate.
  - intros (res & t & -> & Hok & Ht & Hp). rewrite Hok. simpl.
    apply (Hjson res Hok). eauto.
Qed.

(** X15: [healthCheck] does not look at the status.  For an error
    response with a JSON body it returns that body as if it were the
    health report, where the other four calls throw: [uploadDocument]
    with the response text as the message, the rest with their fixed
    messages. *)
Theorem healthCheck_ignores_status (res : FetchResponse) (t : string) (v : JsVal) :
  ok res = false -> body_text res = Some t -> parse t = Some v ->
  healthCheck parse (Responded res) = Returned v /\
  uploadDocument parse (Responded res) = Threw (ErrorWith t) /\
  getDocuments parse (Responded res) = Threw (ErrorWith "Failed to fetch documents") /\
  deleteDocument parse (Responded res) = Threw (ErrorWith "Failed to delete document") /\
  query parse (Responded res) = Threw (ErrorWith "Query failed").
Proof.
  intros Hok Ht Hp.
  unfold healthCheck, uploadDocument, getDocuments, deleteDocument, query,
    checked, res_json, res_text.
  rewrite Hok, Ht, Hp. simpl. auto.
Qed.

End Legacy.

Lemma healthCheck_ignores_status_witness :
  Api.healthCheck (fun _ => Some (JObj [("detail", JStr "Server Error")]))
    (Api.Responded {| Api.ok := false; Api.body_text := Some "{...}" |})
  = Api.Returned (JObj [("detail", JStr "Server Error")]).
Proof.
  apply (healthCheck_ignores_status
           (fun _ => Some (JObj [("detail", JStr "Server Error")]))
           {| Api.ok := false; Api.body_text := Some "{...}" |} "{...}"
           (JObj [("detail", JStr "Server Error")]));
    reflexivity.
Defined.

(** ** App and StatusBar *)

Section HealthMore.
Import App.
Context {Server : Type} (serve : Request -> Server -> Server * Outcome).

(** X16: the status bar reads Connected only when the health request
    succeeded and the body's [ollama_available] is truthy.  Before the
    request settles, and after it fails, it reads Disconnected. *)
Theorem connected_only_after_success (st : State) (w : Net Server) :
  StatusBar.llm_label (health (fst (fst (health_effect serve st w)))) = "Connected" ->
  (exists d, fst (ServicesApi.checkHealth serve w) = Resolved d /\
             truthy (get_prop_opt d "ollama_available") = true) /\
  StatusBar.llm_label (health initial) = "Disconnected".
Proof.
  rewrite health_effect_unfold. cbn [fst]. intros H.
  split; [| reflexivity].
  destruct (fst (ServicesApi.checkHealth serve w)) as [d | why].
  - exists d. split; [reflexivity |].
    unfold StatusBar.llm_label, StatusBar.ollamaStatus in H. simpl in H.
    destruct (truthy (get_prop_opt d "ollama_available"));
      [reflexivity | discriminate H].
  - discriminate H.
Qed.

End HealthMore.

Lemma connected_only_after_success_witness :
  exists d, fst (ServicesApi.checkHealth (fixed_server healthy_response) (fresh_net tt))
            = Resolved d /\
            truthy (get_prop_opt d "ollama_available") = true.
Proof.
  apply (connected_only_after_success (fixed_server healthy_response)
           App.initial (fresh_net tt)).
  reflexivity.
Defined.

(** ** App: switching panels *)

Section Panels.
Import AppView.
Local Open Scope list_scope.
Context {Server : Type} (serve : Request -> Server -> Server * Outcome).

(** X17: going to the documents panel and back to the chat leaves a new
    chat panel: the conversation and its session id are gone, so the
    next question starts a new session.  The round trip sends exactly
    the one listing request of the document panel's mount, and the
    document list, which [App] holds, comes back as that request left
    it. *)
Theorem panel_round_trip_resets_chat (t : Tree) (w : Net Server) :
  shows_chat (app t) = true ->
  let there := setActivePanel serve "documents" t w in
  let back := setActivePanel serve "chat" (fst there) (snd there) in
  chat (fst back) = Some ChatPanel.initial /\
  panel (fst back) = None /\
  sent (snd back) = sent w ++ [ServicesApi.listDocuments_request] /\
  App.documents (app (fst back)) =
    match snd (serve ServicesApi.listDocuments_request (backend w)) with
    | Resolved docs => docs
    | Rejected _ => App.documents (app t)
    end /\
  App.health (app (fst back)) = App.health (app t).
Proof.
  intros Hchat. cbv zeta.
  unfold shows_chat in Hchat. apply String.eqb_eq in Hchat.
  assert (Hthere :
    setActivePanel serve "documents" t w =
      (let st := fst (DocumentPanel.fetchDocuments serve
                        {| DocumentPanel.documents := App.documents (app t);
                           DocumentPanel.uploading := false;
                           DocumentPanel.error := None;
                           DocumentPanel.dragOver := false |} w) in
       {| app := setAppDocuments (DocumentPanel.documents st)
                   (setActivePanelState "documents" (app t));
          chat := None; panel := Some st |},
       snd (DocumentPanel.fetchDocuments serve
              {| DocumentPanel.documents := App.documents (app t);
                 DocumentPanel.uploading := false;
                 DocumentPanel.error := None;
                 DocumentPanel.dragOver := false |} w))).
  { unfold setActivePanel, shows_chat. rewrite Hchat. simpl.
    now rewrite bind_unfold. }
  rewrite Hthere. cbv zeta. cbn [fst snd].
  unfold setActivePanel. simpl.
  rewrite fetchDocuments_documents, fetchDocuments_unfold. simpl.
  repeat split.
Qed.

End Panels.

Lemma panel_round_trip_resets_chat_witness :
  AppView.chat
    (fst (AppView.setActivePanel (fixed_server (JArr [])) "chat"
            (fst (AppView.setActivePanel (fixed_server (JArr [])) "documents"
                    {| AppView.app := App.initial;
                       AppView.chat :=
                         Some (ChatPanel.handleSubmit_resume (Resolved s1_response)
                                 ChatPanel.initial);
                       AppView.panel := None |}
                    (fresh_net tt)))
            (snd (AppView.setActivePanel (fixed_server (JArr [])) "documents"
                    {| AppView.app := App.initial;
                       AppView.chat :=
                         Some (ChatPanel.handleSubmit_resume (Resolved s1_response)
                                 ChatPanel.initial);
                       AppView.panel := None |}
                    (fresh_net tt)))))
  = Some ChatPanel.initial.
Proof.
  apply (panel_round_trip_resets_chat (fixed_server (JArr []))
           {| AppView.app := App.initial;
              AppView.chat :=
                Some (ChatPanel.handleSubmit_resume (Resolved s1_response)
                        ChatPanel.initial);
              AppView.panel := None |}
           (fresh_net tt)).
  reflexivity.
Defined.

Lemma isPdf_iff_last_four_witness :
  DocumentPanel.isPdf {| name := "Report.PdF"; size := 1 |} = true.
Proof.
  apply (isPdf_iff_last_four {| name := "Report.PdF"; size := 1 |}).
  exists "Report", "P"%char, "d"%char, "F"%char. simpl. auto.
Defined.

Lemma identifier_paths_are_injective_witness :
  ServicesApi.requested_path (ServicesApi.getDocument_request "42") = Some "/documents/42/".
Proof.
  apply (identifier_paths_are_injective "42" "43"); reflexivity.
Defined.

Lemma checked_calls_return_ok_bodies_witness :
  Api.query (fun _ => Some JNull)
    (Api.Responded {| Api.ok := true; Api.body_text := Some "null" |})
  = Api.Returned JNull.
Proof.
  apply (checked_calls_return_ok_bodies (fun _ => Some JNull)
           (Api.Responded {| Api.ok := true; Api.body_text := Some "null" |}) JNull).
  exists {| Api.ok := true; Api.body_text := Some "null" |}, "null". auto.
Defined.
